(** * mgis130-bi-dashboard: the two serverless handlers

    A shallow embedding of [api/stocks.js] and [api/transcripts.js]: the
    JavaScript values the handlers touch, the runtime they run against
    (environment, upstream HTTP service, response object, console) as a
    state-and-exception monad, then the client functions and the handlers
    themselves, followed by the properties of the request/response
    behaviour. *)

From Stdlib Require Import List String Ascii Bool Arith NArith ZArith Lia.
From Stdlib Require Import DecimalString Floats Uint63.
Import ListNotations.

Set Warnings "-register-all".

Local Open Scope string_scope.
Local Open Scope list_scope.

(** ** JavaScript values *)

Module JS.

(** The values that flow through the handlers: what [JSON.parse] can
    produce, plus [undefined] for absent properties.  Numbers are IEEE
    doubles.  An object is its list of own properties in insertion
    order (keys are expected to be distinct; the first binding wins). *)
Inductive JSValue : Type :=
| JUndefined
| JNull
| JBool (b : bool)
| JNumber (x : float)
| JString (s : string)
| JArray (items : list JSValue)
| JObject (props : list (string * JSValue)).

(** [ToBoolean]: the falsy values are undefined, null, false, +0, -0,
    NaN and the empty string. *)
Definition truthy (v : JSValue) : bool :=
  match v with
  | JUndefined | JNull => false
  | JBool b => b
  | JNumber x => negb (PrimFloat.is_zero x || PrimFloat.is_nan x)
  | JString s => negb (s =? "")
  | JArray _ | JObject _ => true
  end.

(** [typeof v === 'number'] *)
Definition typeof_number (v : JSValue) : bool :=
  match v with JNumber _ => true | _ => false end.

(** [a || b] *)
Definition or_else (a b : JSValue) : JSValue := if truthy a then a else b.

Fixpoint lookup {A : Type} (k : string) (props : list (string * A)) : option A :=
  match props with
  | [] => None
  | (k', v) :: rest => if k' =? k then Some v else lookup k rest
  end.

(** [Object.keys(o)] *)
Definition keys {A : Type} (props : list (string * A)) : list string :=
  map fst props.

(** Reading a property of a value that is known not to be null or
    undefined: an absent property reads as undefined.  Primitives and
    arrays carry none of the property names the handlers read. *)
Definition field (k : string) (v : JSValue) : JSValue :=
  match v with
  | JObject props => match lookup k props with Some x => x | None => JUndefined end
  | _ => JUndefined
  end.

Definition has_field (k : string) (v : JSValue) : bool :=
  match v with
  | JObject props => match lookup k props with Some _ => true | None => false end
  | _ => false
  end.

Definition elements (v : JSValue) : list JSValue :=
  match v with JArray items => items | _ => [] end.

(** A non-negative integer as a JS number ([Array.prototype.length]). *)
Definition number_of_nat (n : nat) : float :=
  PrimFloat.of_uint63 (Uint63.of_Z (Z.of_nat n)).

(** Template-literal rendering of an integer status code. *)
Definition string_of_N (n : N) : string :=
  NilEmpty.string_of_uint (N.to_uint n).

(** Strings are the UTF-8 bytes of the JavaScript string.  A string of
    ASCII characters has every byte below 128. *)
Definition is_ascii_char (c : ascii) : bool :=
  match c with Ascii _ _ _ _ _ _ _ b7 => negb b7 end.

Fixpoint is_ascii (s : string) : bool :=
  match s with
  | EmptyString => true
  | String c rest => is_ascii_char c && is_ascii rest
  end.

(** What [String.prototype.toUpperCase] does to a string of ASCII
    characters: a-z go to A-Z, every other character is left as it is.
    On other strings the method follows the Unicode case mappings (it
    is a field of the engine, see [Engine] below). *)
Definition upper_ascii (c : ascii) : ascii :=
  let n := N_of_ascii c in
  if ((97 <=? n) && (n <=? 122))%N then ascii_of_N (n - 32) else c.

Fixpoint ascii_toUpperCase (s : string) : string :=
  match s with
  | EmptyString => EmptyString
  | String c rest => String (upper_ascii c) (ascii_toUpperCase rest)
  end.

(** [Error] objects: only the message is ever read. *)
Record JSError : Type := mkError { err_name : string; message : string }.

Definition Error (msg : string) : JSError := mkError "Error" msg.
Definition TypeError (msg : string) : JSError := mkError "TypeError" msg.

End JS.
Import JS.

(** ** The runtime: upstream service, environment, response, console *)

Module Runtime.

(** One outbound [fetch(url, {method, headers})]. *)
Record FetchCall : Type := mkCall {
  call_url : string;
  call_method : string;
  call_headers : list (string * JSValue)
}.

(** What [response.json()] does: reject with a parse error or resolve
    with the parsed value. *)
Inductive BodyOutcome : Type :=
| BodyInvalid (e : JSError)
| BodyJson (data : JSValue).

Record Response : Type := mkResponse {
  status : N;
  statusText : string;
  body : BodyOutcome
}.

(** [response.ok]: the status is in the range 200-299. *)
Definition ok (r : Response) : bool :=
  ((200 <=? status r) && (status r <=? 299))%N.

(** What [fetch] does: reject (network failure) or resolve with a
    response of any status. *)
Inductive FetchOutcome : Type :=
| NetworkError (e : JSError)
| Responded (r : Response).

(** What reading a parameter of [req.query] gives: undefined when it is
    absent, a string, or an array of strings when the parameter is
    repeated in the query string. *)
Inductive QueryValue : Type :=
| QUndefined
| QString (s : string)
| QArray (items : list string).

Record Request : Type := mkRequest {
  method : string;
  query : list (string * QueryValue)
}.

(** [req.query.name] *)
Definition query_param (req : Request) (name : string) : QueryValue :=
  match lookup name (query req) with
  | Some v => v
  | None => QUndefined
  end.

(** The JavaScript engine's [String.prototype.toUpperCase].  It is a
    built-in, not code of the repository: any function that uppercases
    strings of ASCII characters the ASCII way is admitted, so whatever
    the Unicode case mappings do elsewhere (U+017F, the long s,
    uppercases to S) is covered. *)
Record Engine : Type := mkEngine {
  uppercase : string -> string;
  uppercase_ascii :
    forall s, is_ascii s = true -> uppercase s = ascii_toUpperCase s
}.

(** Everything the handlers read but do not change. *)
Record World : Type := mkWorld {
  env : list (string * string);              (* process.env *)
  upstream : FetchCall -> FetchOutcome;      (* the provider *)
  clock : string;                            (* new Date().toISOString() *)
  engine : Engine                            (* the built-ins *)
}.

(** [s.toUpperCase()] *)
Definition toUpperCase (w : World) (s : string) : string :=
  uppercase (engine w) s.

Inductive LogArg : Type :=
| LogString (s : string)
| LogError (e : JSError).

Inductive Sent : Type :=
| NotSent
| Ended                       (* res.end() *)
| SentJson (payload : JSValue) (* res.json(payload) *).

(** Everything the handlers change: the response object, the record of
    outbound calls, and the server-side console. *)
Record St : Type := mkSt {
  res_headers : list (string * JSValue);
  res_status : N;
  res_sent : Sent;
  fetch_log : list FetchCall;
  console_log : list (list LogArg)
}.

Definition fresh : St := mkSt [] 200 NotSent [] [].

(** How a computation ends.  Whatever is thrown is an [Error] object:
    [fetch] rejects with a [TypeError], [response.json()] with a
    [SyntaxError], and the code itself throws [new Error(...)]. *)
Inductive Completion (A : Type) : Type :=
| Normal (a : A)
| Throw (e : JSError).
Arguments Normal {A} a.
Arguments Throw {A} e.

Definition M (A : Type) : Type := St -> Completion A * St.

Definition ret {A} (a : A) : M A := fun s => (Normal a, s).

Definition bind {A B} (m : M A) (k : A -> M B) : M B :=
  fun s => match m s with
           | (Normal a, s') => k a s'
           | (Throw e, s') => (Throw e, s')
           end.

Definition throw {A} (e : JSError) : M A := fun s => (Throw e, s).

(** [try { body } catch (error) { handler }] *)
Definition try_catch {A} (body : M A) (handler : JSError -> M A) : M A :=
  fun s => match body s with
           | (Normal a, s') => (Normal a, s')
           | (Throw e, s') => handler e s'
           end.

Fixpoint mapM {A B} (f : A -> M B) (l : list A) : M (list B) :=
  match l with
  | [] => ret []
  | a :: rest =>
      bind (f a) (fun b => bind (mapM f rest) (fun bs => ret (b :: bs)))
  end.

End Runtime.
Import Runtime.

Declare Scope js_scope.
Delimit Scope js_scope with js.
Notation "x <- m ;; k" := (bind m (fun x => k))
  (at level 61, m at next level, right associativity) : js_scope.
Notation "m ;; k" := (bind m (fun _ => k))
  (at level 61, right associativity) : js_scope.

Local Open Scope js_scope.

(** The response object [res]. *)
Module res.

Definition setHeader (name : string) (value : JSValue) : M unit :=
  fun s => (Normal tt,
            mkSt (res_headers s ++ [(name, value)]) (res_status s)
                 (res_sent s) (fetch_log s) (console_log s)).

Definition status (code : N) : M unit :=
  fun s => (Normal tt,
            mkSt (res_headers s) code (res_sent s) (fetch_log s)
                 (console_log s)).

Definition json (payload : JSValue) : M unit :=
  fun s => (Normal tt,
            mkSt (res_headers s) (res_status s) (SentJson payload)
                 (fetch_log s) (console_log s)).

Definition end_ : M unit :=
  fun s => (Normal tt,
            mkSt (res_headers s) (res_status s) Ended (fetch_log s)
                 (console_log s)).

End res.

Module console.

Definition error (args : list LogArg) : M unit :=
  fun s => (Normal tt,
            mkSt (res_headers s) (res_status s) (res_sent s) (fetch_log s)
                 (console_log s ++ [args])).

End console.

(** [await fetch(url, {method, headers})]: the call is recorded, then the
    provider decides whether it rejects or resolves. *)
Definition fetch (w : World) (url method : string)
    (headers : list (string * JSValue)) : M Response :=
  fun s =>
    let call := mkCall url method headers in
    let s' := mkSt (res_headers s) (res_status s) (res_sent s)
                   (fetch_log s ++ [call]) (console_log s) in
    match upstream w call with
    | NetworkError e => (Throw e, s')
    | Responded r => (Normal r, s')
    end.

(** [await response.json()] *)
Definition json (r : Response) : M JSValue :=
  match body r with
  | BodyInvalid e => throw e
  | BodyJson data => ret data
  end.

(** [v.k]: a property read; on null and undefined it throws. *)
Definition get (v : JSValue) (k : string) : M JSValue :=
  match v with
  | JUndefined =>
      throw (TypeError ("Cannot read properties of undefined (reading '" ++ k ++ "')"))
  | JNull =>
      throw (TypeError ("Cannot read properties of null (reading '" ++ k ++ "')"))
  | _ => ret (field k v)
  end.

(** [process.env.NAME]: a string, or undefined when the variable is not
    set. *)
Definition process_env (w : World) (name : string) : JSValue :=
  match lookup name (env w) with
  | Some value => JString value
  | None => JUndefined
  end.

(** ** api/stocks.js *)

Module Stocks.

(** Company ticker mappings for tracked competitors. *)
Definition COMPANIES : list (string * string) :=
  [ ("AAPL", "Apple Inc.");
    ("MSFT", "Microsoft Corporation");
    ("GOOGL", "Alphabet Inc. (Google)");
    ("META", "Meta Platforms Inc.");
    ("AMZN", "Amazon.com Inc.") ].

(** [COMPANIES[ticker]], for the tickers the handler passes: the keys of
    [COMPANIES] (a name inherited from [Object.prototype] is never asked
    for). *)
Definition company (ticker : string) : JSValue :=
  match lookup ticker COMPANIES with
  | Some name => JString name
  | None => JUndefined
  end.

(** The object a call of [fetchStockPrice] resolves to; a property the
    object literal leaves out reads as undefined. *)
Record PriceResult : Type := mkPriceResult {
  ticker : string;
  companyName : JSValue;
  price : JSValue;
  success : bool;
  error : JSValue
}.

Definition url (ticker : string) : string :=
  "https://api.api-ninjas.com/v1/stockprice?ticker=" ++ ticker.

Definition headers (apiKey : JSValue) : list (string * JSValue) :=
  [ ("X-Api-Key", apiKey); ("Content-Type", JString "application/json") ].

Definition fetchStockPrice (w : World) (ticker : string) (apiKey : JSValue)
  : M PriceResult :=
  try_catch
    (response <- fetch w (url ticker) "GET" (headers apiKey) ;;
     if negb (ok response) then
       throw (Error ("API request failed for " ++ ticker ++ ": "
                     ++ string_of_N (status response) ++ " "
                     ++ statusText response))
     else
       data <- json response ;;
       (* !data || typeof data.price !== 'number' *)
       if negb (truthy data) then
         throw (Error ("Invalid data received for " ++ ticker))
       else
         p <- get data "price" ;;
         if negb (typeof_number p) then
           throw (Error ("Invalid data received for " ++ ticker))
         else
           ret (mkPriceResult ticker (company ticker) p true JUndefined))
    (fun error =>
       console.error [LogString ("Error fetching " ++ ticker ++ ":");
                      LogString (message error)] ;;
       ret (mkPriceResult ticker (company ticker) JNull false
              (JString (message error)))).

Definition stock_entry (result : PriceResult) : JSValue :=
  JObject [ ("ticker", JString (ticker result));
            ("companyName", companyName result);
            ("price", price result) ].

Definition detail_entry (r : PriceResult) : JSValue :=
  JObject [ ("ticker", JString (ticker r)); ("error", error r) ].

Definition warning_entry (r : PriceResult) : JSValue :=
  JObject [ ("ticker", JString (ticker r));
            ("companyName", companyName r);
            ("message", JString "Failed to fetch data") ].

(** The body of the handler's [try] block.  The fan-out
    [Promise.all(tickers.map(...))] issues the calls in ticker order and
    yields the results in ticker order; the model also completes them
    in that order, which only fixes the order of the console lines. *)
Definition try_block (w : World) : M unit :=
  let apiKey := process_env w "API_KEY" in
  if negb (truthy apiKey) then
    console.error [LogString "API_KEY environment variable is not configured"] ;;
    res.status 500 ;;
    res.json (JObject
      [ ("error", JString "Server configuration error");
        ("message", JString "API key not configured. Please set API_KEY environment variable.") ])
  else
    let tickers := keys COMPANIES in
    results <- mapM (fun ticker => fetchStockPrice w ticker apiKey) tickers ;;
    let successfulResults := filter success results in
    let failedResults := filter (fun r => negb (success r)) results in
    if (List.length successfulResults =? 0)%nat then
      res.status 503 ;;
      res.json (JObject
        [ ("error", JString "Service unavailable");
          ("message", JString "Unable to fetch stock data from API");
          ("details", JArray (map detail_entry failedResults)) ])
    else
      let responseData :=
        [ ("timestamp", JString (clock w));
          ("stocks", JArray (map stock_entry successfulResults));
          ("metadata", JObject
             [ ("total", JNumber (number_of_nat (List.length tickers)));
               ("successful", JNumber (number_of_nat (List.length successfulResults)));
               ("failed", JNumber (number_of_nat (List.length failedResults))) ]) ] in
      let responseData :=
        if (0 <? List.length failedResults)%nat then
          responseData ++ [ ("warnings", JArray (map warning_entry failedResults)) ]
        else responseData in
      res.status 200 ;;
      res.json (JObject responseData).

Definition catch_block (error : JSError) : M unit :=
  console.error [LogString "Unexpected error in stocks API:"; LogError error] ;;
  res.status 500 ;;
  res.json (JObject
    [ ("error", JString "Internal server error");
      ("message", JString "An unexpected error occurred while fetching stock data");
      ("details", JString (message error)) ]).

Definition handler (w : World) (req : Request) : M unit :=
  res.setHeader "Access-Control-Allow-Credentials" (JBool true) ;;
  res.setHeader "Access-Control-Allow-Origin" (JString "*") ;;
  res.setHeader "Access-Control-Allow-Methods" (JString "GET,OPTIONS") ;;
  res.setHeader "Access-Control-Allow-Headers" (JString "Content-Type") ;;
  if method req =? "OPTIONS" then
    res.status 200 ;; res.end_
  else if negb (method req =? "GET") then
    res.status 405 ;;
    res.json (JObject
      [ ("error", JString "Method not allowed");
        ("message", JString "Only GET requests are supported") ])
  else
    try_catch (try_block w) catch_block.

End Stocks.

(** ** api/transcripts.js *)

Module Transcripts.

(** Company ticker mappings. *)
Definition COMPANIES : list (string * string) :=
  [ ("AAPL", "Apple Inc.");
    ("MSFT", "Microsoft Corporation");
    ("GOOGL", "Alphabet Inc. (Google)");
    ("META", "Meta Platforms Inc.");
    ("AMZN", "Amazon.com Inc.") ].

(** [COMPANIES[ticker]], for the strings the handler passes: uppercased
    ones, so never a name inherited from [Object.prototype] (those all
    contain a lowercase letter). *)
Definition company (ticker : string) : JSValue :=
  match lookup ticker COMPANIES with
  | Some name => JString name
  | None => JUndefined
  end.

(** The object a call of [fetchEarningsTranscript] resolves to; a
    property the object literal leaves out reads as undefined. *)
Record TranscriptResult : Type := mkTranscriptResult {
  ticker : string;
  companyName : JSValue;
  date : JSValue;
  timestamp : JSValue;
  year : JSValue;
  quarter : JSValue;
  earningsTiming : JSValue;
  transcript : JSValue;
  participants : JSValue;
  transcriptSplit : JSValue;
  success : bool;
  error : JSValue
}.

Definition url (ticker : string) : string :=
  "https://api.api-ninjas.com/v1/earningstranscript?ticker=" ++ ticker.

Definition headers (apiKey : JSValue) : list (string * JSValue) :=
  [ ("X-Api-Key", apiKey); ("Content-Type", JString "application/json") ].

Definition fetchEarningsTranscript (w : World) (ticker : string)
    (apiKey : JSValue) : M TranscriptResult :=
  try_catch
    (response <- fetch w (url ticker) "GET" (headers apiKey) ;;
     if negb (ok response) then
       throw (Error ("API request failed for " ++ ticker ++ ": "
                     ++ string_of_N (status response) ++ " "
                     ++ statusText response))
     else
       data <- json response ;;
       (* !data || !data.transcript *)
       if negb (truthy data) then
         throw (Error ("No transcript data available for " ++ ticker))
       else
         t <- get data "transcript" ;;
         if negb (truthy t) then
           throw (Error ("No transcript data available for " ++ ticker))
         else
           d <- get data "date" ;;
           ts <- get data "timestamp" ;;
           y <- get data "year" ;;
           q <- get data "quarter" ;;
           et <- get data "earnings_timing" ;;
           t' <- get data "transcript" ;;
           ps <- get data "participants" ;;
           sp <- get data "transcript_split" ;;
           ret (mkTranscriptResult ticker (company ticker) d ts y q et t'
                  (or_else ps (JArray [])) (or_else sp (JArray []))
                  true JUndefined))
    (fun error =>
       console.error [LogString ("Error fetching transcript for " ++ ticker ++ ":");
                      LogString (message error)] ;;
       ret (mkTranscriptResult ticker (company ticker)
              JUndefined JUndefined JUndefined JUndefined JUndefined
              JUndefined JUndefined JUndefined
              false (JString (message error)))).

Definition available : JSValue := JArray (map JString (keys COMPANIES)).

(** [ticker.toUpperCase()]: arrays have no such method. *)
Definition upper (w : World) (ticker : QueryValue) : M string :=
  match ticker with
  | QUndefined =>
      throw (TypeError "Cannot read properties of undefined (reading 'toUpperCase')")
  | QString s => ret (toUpperCase w s)
  | QArray _ => throw (TypeError "ticker.toUpperCase is not a function")
  end.

(** [!ticker]: undefined and the empty string are falsy, every array is
    truthy. *)
Definition missing (ticker : QueryValue) : bool :=
  match ticker with
  | QUndefined => true
  | QString s => s =? ""
  | QArray _ => false
  end.

(** [`${ticker}`]: a string as it is, an array joined with commas. *)
Definition render (ticker : QueryValue) : string :=
  match ticker with
  | QUndefined => "undefined"
  | QString s => s
  | QArray items => String.concat "," items
  end.

(** The body of the handler's [try] block. *)
Definition try_block (w : World) (req : Request) : M unit :=
  let apiKey := process_env w "API_KEY" in
  if negb (truthy apiKey) then
    console.error [LogString "API_KEY environment variable is not configured"] ;;
    res.status 500 ;;
    res.json (JObject
      [ ("error", JString "Server configuration error");
        ("message", JString "API key not configured. Please set API_KEY environment variable.") ])
  else
    let ticker := query_param req "ticker" in
    if missing ticker then
      res.status 200 ;;
      res.json (JObject
        [ ("message", JString "Provide a ticker parameter to fetch transcript");
          ("availableTickers", available);
          ("example", JString "/api/transcripts?ticker=MSFT") ])
    else
      upperTicker <- upper w ticker ;;
      if negb (truthy (company upperTicker)) then
        res.status 400 ;;
        res.json (JObject
          [ ("error", JString "Invalid ticker");
            ("message", JString ("Ticker '" ++ render ticker ++ "' is not supported"));
            ("availableTickers", available) ])
      else
        result <- fetchEarningsTranscript w upperTicker apiKey ;;
        if negb (success result) then
          res.status 503 ;;
          res.json (JObject
            [ ("error", JString "Service unavailable");
              ("message", JString ("Unable to fetch transcript for " ++ upperTicker));
              ("details", error result) ])
        else
          res.status 200 ;;
          res.json (JObject
            [ ("success", JBool true);
              ("data", JObject
                 [ ("ticker", JString (Transcripts.ticker result));
                   ("companyName", companyName result);
                   ("date", date result);
                   ("timestamp", timestamp result);
                   ("year", year result);
                   ("quarter", quarter result);
                   ("earningsTiming", earningsTiming result);
                   ("transcript", transcript result);
                   ("participants", participants result);
                   ("transcriptSplit", transcriptSplit result) ]) ]).

Definition catch_block (error : JSError) : M unit :=
  console.error [LogString "Unexpected error in transcripts API:"; LogError error] ;;
  res.status 500 ;;
  res.json (JObject
    [ ("error", JString "Internal server error");
      ("message", JString "An unexpected error occurred while fetching transcript data");
      ("details", JString (message error)) ]).

Definition handler (w : World) (req : Request) : M unit :=
  res.setHeader "Access-Control-Allow-Credentials" (JBool true) ;;
  res.setHeader "Access-Control-Allow-Origin" (JString "*") ;;
  res.setHeader "Access-Control-Allow-Methods" (JString "GET,OPTIONS") ;;
  res.setHeader "Access-Control-Allow-Headers" (JString "Content-Type") ;;
  if method req =? "OPTIONS" then
    res.status 200 ;; res.end_
  else if negb (method req =? "GET") then
    res.status 405 ;;
    res.json (JObject
      [ ("error", JString "Method not allowed");
        ("message", JString "Only GET requests are supported") ])
  else
    try_catch (try_block w req) catch_block.

End Transcripts.

(** ** Observations on a run *)

(** The JSON payload of the response, once sent. *)
Definition payload (s : St) : JSValue :=
  match res_sent s with
  | SentJson v => v
  | _ => JUndefined
  end.

(** The response object after the four CORS headers have been set. *)
Definition with_cors (s : St) : St :=
  mkSt ((((res_headers s
           ++ [("Access-Control-Allow-Credentials", JBool true)])
           ++ [("Access-Control-Allow-Origin", JString "*")])
           ++ [("Access-Control-Allow-Methods", JString "GET,OPTIONS")])
           ++ [("Access-Control-Allow-Headers", JString "Content-Type")])
       (res_status s) (res_sent s) (fetch_log s) (console_log s).

(** A computation that touches the outbound-call record and the console
    only, and makes exactly the calls [calls]. *)
Definition client_frame (calls : list FetchCall) (s s' : St) : Prop :=
  res_headers s' = res_headers s /\
  res_status s' = res_status s /\
  res_sent s' = res_sent s /\
  fetch_log s' = fetch_log s ++ calls.

(** The fixed ticker set, in the order [Object.keys] lists it. *)
Definition TICKERS : list string := ["AAPL"; "MSFT"; "GOOGL"; "META"; "AMZN"].

(** The outbound call the stock client makes for a ticker. *)
Definition stock_call (apiKey : JSValue) (t : string) : FetchCall :=
  mkCall (Stocks.url t) "GET" (Stocks.headers apiKey).

(** An upstream outcome the stock client turns into a success: a 2xx
    response whose body parses to a truthy value with a numeric [price]. *)
Definition price_ok (o : FetchOutcome) : bool :=
  match o with
  | NetworkError _ => false
  | Responded r =>
      ok r &&
      match body r with
      | BodyInvalid _ => false
      | BodyJson data => truthy data && typeof_number (field "price" data)
      end
  end.

(** The outbound call the transcript client makes for a ticker. *)
Definition transcript_call (apiKey : JSValue) (t : string) : FetchCall :=
  mkCall (Transcripts.url t) "GET" (Transcripts.headers apiKey).

(** An upstream outcome the transcript client turns into a success: a 2xx
    response whose body parses to a truthy value with a truthy
    [transcript]. *)
Definition transcript_ok (o : FetchOutcome) : bool :=
  match o with
  | NetworkError _ => false
  | Responded r =>
      ok r &&
      match body r with
      | BodyInvalid _ => false
      | BodyJson data => truthy data && truthy (field "transcript" data)
      end
  end.

(** What a call of the stock client resolves to, whatever the state it
    starts in. *)
Definition stock_returns (w : World) (apiKey : JSValue) (t : string)
    (r : Stocks.PriceResult) : Prop :=
  forall s, exists s',
    Stocks.fetchStockPrice w t apiKey s = (Normal r, s') /\
    client_frame [stock_call apiKey t] s s'.

(** Whether the stock call for ticker [t] succeeds in world [w]. *)
Definition succeeded (w : World) (t : string) : bool :=
  price_ok (upstream w (stock_call (process_env w "API_KEY") t)).

(** ** Vocabulary of the properties *)

(** The shape of a stock Result: a success carries a number and no
    error, a failure carries a null price and an error string. *)
Definition price_result_shape (r : Stocks.PriceResult) : Prop :=
  (Stocks.success r = true /\
   (exists x, Stocks.price r = JNumber x) /\ Stocks.error r = JUndefined)
  \/
  (Stocks.success r = false /\
   Stocks.price r = JNull /\ exists msg, Stocks.error r = JString msg).

(** What is known of the Result the client returned for ticker [t]. *)
Definition stock_fact (w : World) (apiKey : JSValue) (t : string)
    (r : Stocks.PriceResult) : Prop :=
  stock_returns w apiKey t r /\
  Stocks.ticker r = t /\
  Stocks.companyName r = Stocks.company t /\
  Stocks.success r = price_ok (upstream w (stock_call apiKey t)) /\
  price_result_shape r.

Definition failed (r : Stocks.PriceResult) : bool := negb (Stocks.success r).

Definition config_error_payload : JSValue :=
  JObject
    [ ("error", JString "Server configuration error");
      ("message", JString "API key not configured. Please set API_KEY environment variable.") ].

Definition method_error_payload : JSValue :=
  JObject
    [ ("error", JString "Method not allowed");
      ("message", JString "Only GET requests are supported") ].

(** The shape of a transcript Result: a success carries the transcript
    and no error, a failure carries an error string and no transcript. *)
Definition transcript_result_shape (r : Transcripts.TranscriptResult) : Prop :=
  (Transcripts.success r = true /\
   truthy (Transcripts.transcript r) = true /\
   Transcripts.error r = JUndefined)
  \/
  (Transcripts.success r = false /\
   Transcripts.transcript r = JUndefined /\
   exists msg, Transcripts.error r = JString msg).

(** The fields a successful transcript Result takes from the parsed
    upstream body [data]. *)
Definition carries (data : JSValue) (r : Transcripts.TranscriptResult) : Prop :=
  Transcripts.date r = field "date" data /\
  Transcripts.timestamp r = field "timestamp" data /\
  Transcripts.year r = field "year" data /\
  Transcripts.quarter r = field "quarter" data /\
  Transcripts.earningsTiming r = field "earnings_timing" data /\
  Transcripts.transcript r = field "transcript" data /\
  Transcripts.participants r = or_else (field "participants" data) (JArray []) /\
  Transcripts.transcriptSplit r = or_else (field "transcript_split" data) (JArray []).

Definition transcript_returns (w : World) (apiKey : JSValue) (t : string)
    (r : Transcripts.TranscriptResult) : Prop :=
  forall s, exists s',
    Transcripts.fetchEarningsTranscript w t apiKey s = (Normal r, s') /\
    client_frame [transcript_call apiKey t] s s'.

(** The failure condition as the specification words it: the response is
    not 2xx, or its body has no [transcript] field (a call that got no
    response, or a body that does not parse, has none either). *)
Definition non_2xx_or_no_transcript_field (o : FetchOutcome) : bool :=
  match o with
  | NetworkError _ => true
  | Responded resp =>
      negb (ok resp) ||
      match body resp with
      | BodyInvalid _ => true
      | BodyJson data => negb (has_field "transcript" data)
      end
  end.

(** The failure condition of the code: no response, a status outside
    200-299, a body that does not parse, a falsy parsed body, or a
    [transcript] that is absent or falsy. *)
Definition transcript_failure (o : FetchOutcome) : Prop :=
  match o with
  | NetworkError _ => True
  | Responded resp =>
      ok resp = false \/
      match body resp with
      | BodyInvalid _ => True
      | BodyJson data =>
          truthy data = false \/ truthy (field "transcript" data) = false
      end
  end.

(** The ticker, uppercased by the engine's [toUpperCase], is one of the
    keys of [COMPANIES]. *)
Definition matches_allow_list (w : World) (t : string) : bool :=
  existsb (fun k => k =? toUpperCase w t) TICKERS.

Definition discovery_payload : JSValue :=
  JObject
    [ ("message", JString "Provide a ticker parameter to fetch transcript");
      ("availableTickers", JArray (map JString TICKERS));
      ("example", JString "/api/transcripts?ticker=MSFT") ].

Definition invalid_ticker_payload (t : string) : JSValue :=
  JObject
    [ ("error", JString "Invalid ticker");
      ("message", JString ("Ticker '" ++ t ++ "' is not supported"));
      ("availableTickers", JArray (map JString TICKERS)) ].

(** A provider that answers the stock call of the i-th ticker with the
    i-th outcome of [outcomes]. *)
Definition upstream_of_outcomes (outcomes : list FetchOutcome)
    : FetchCall -> FetchOutcome :=
  fun call =>
    match lookup (call_url call) (combine (map Stocks.url TICKERS) outcomes) with
    | Some o => o
    | None => NetworkError (TypeError "fetch failed")
    end.

(** ** Vocabulary of the end-to-end properties *)

(** The four CORS headers, in the order the handlers set them. *)
Definition CORS_HEADERS : list (string * JSValue) :=
  [ ("Access-Control-Allow-Credentials", JBool true);
    ("Access-Control-Allow-Origin", JString "*");
    ("Access-Control-Allow-Methods", JString "GET,OPTIONS");
    ("Access-Control-Allow-Headers", JString "Content-Type") ].

(** The state once one more outbound call has been recorded. *)
Definition after_call (call : FetchCall) (s : St) : St :=
  mkSt (res_headers s) (res_status s) (res_sent s)
       (fetch_log s ++ [call]) (console_log s).

(** The state once one more console line has been written. *)
Definition after_log (line : list LogArg) (s : St) : St :=
  mkSt (res_headers s) (res_status s) (res_sent s)
       (fetch_log s) (console_log s ++ [line]).

(** The parsed body of an upstream outcome, undefined when there is
    none. *)
Definition parsed_body (o : FetchOutcome) : JSValue :=
  match o with
  | Responded r =>
      match body r with
      | BodyJson data => data
      | BodyInvalid _ => JUndefined
      end
  | NetworkError _ => JUndefined
  end.

(** The message of the exception the stock client catches, by cause:
    the rejection of [fetch], the status line of a non-2xx response, the
    rejection of [response.json()], or the validation of the body. *)
Definition stock_failure_message (t : string) (o : FetchOutcome) : string :=
  match o with
  | NetworkError e => message e
  | Responded r =>
      if ok r then
        match body r with
        | BodyInvalid e => message e
        | BodyJson _ => "Invalid data received for " ++ t
        end
      else
        "API request failed for " ++ t ++ ": "
        ++ string_of_N (status r) ++ " " ++ statusText r
  end.

(** The same for the transcript client. *)
Definition transcript_failure_message (t : string) (o : FetchOutcome)
    : string :=
  match o with
  | NetworkError e => message e
  | Responded r =>
      if ok r then
        match body r with
        | BodyInvalid e => message e
        | BodyJson _ => "No transcript data available for " ++ t
        end
      else
        "API request failed for " ++ t ++ ": "
        ++ string_of_N (status r) ++ " " ++ statusText r
  end.

(** The Result of the stock client as a function of the upstream
    outcome of its call. *)
Definition price_result_of (t : string) (o : FetchOutcome)
    : Stocks.PriceResult :=
  if price_ok o then
    Stocks.mkPriceResult t (Stocks.company t) (field "price" (parsed_body o))
      true JUndefined
  else
    Stocks.mkPriceResult t (Stocks.company t) JNull false
      (JString (stock_failure_message t o)).

(** The Result of the transcript client as a function of the upstream
    outcome of its call. *)
Definition transcript_result_of (t : string) (o : FetchOutcome)
    : Transcripts.TranscriptResult :=
  let data := parsed_body o in
  if transcript_ok o then
    Transcripts.mkTranscriptResult t (Transcripts.company t)
      (field "date" data) (field "timestamp" data) (field "year" data)
      (field "quarter" data) (field "earnings_timing" data)
      (field "transcript" data)
      (or_else (field "participants" data) (JArray []))
      (or_else (field "transcript_split" data) (JArray []))
      true JUndefined
  else
    Transcripts.mkTranscriptResult t (Transcripts.company t)
      JUndefined JUndefined JUndefined JUndefined JUndefined
      JUndefined JUndefined JUndefined
      false (JString (transcript_failure_message t o)).

(** The upstream outcome of the stock call for ticker [t] in world [w]. *)
Definition stock_outcome (w : World) (t : string) : FetchOutcome :=
  upstream w (stock_call (process_env w "API_KEY") t).

(** The upstream outcome of the transcript call for ticker [t] in world
    [w]. *)
Definition transcript_outcome (w : World) (t : string) : FetchOutcome :=
  upstream w (transcript_call (process_env w "API_KEY") t).

(** The payload of a 200 answer to a valid ticker, from the parsed
    upstream body. *)
Definition transcript_payload (u : string) (data : JSValue) : JSValue :=
  JObject
    [ ("success", JBool true);
      ("data", JObject
         [ ("ticker", JString u);
           ("companyName", Transcripts.company u);
           ("date", field "date" data);
           ("timestamp", field "timestamp" data);
           ("year", field "year" data);
           ("quarter", field "quarter" data);
           ("earningsTiming", field "earnings_timing" data);
           ("transcript", field "transcript" data);
           ("participants", or_else (field "participants" data) (JArray []));
           ("transcriptSplit",
            or_else (field "transcript_split" data) (JArray [])) ]) ].

(** The payload of a 503 answer to a valid ticker. *)
Definition transcript_unavailable_payload (u msg : string) : JSValue :=
  JObject
    [ ("error", JString "Service unavailable");
      ("message", JString ("Unable to fetch transcript for " ++ u));
      ("details", JString msg) ].

(** The Results of the fan-out, one per ticker, in ticker order. *)
Definition stock_results (w : World) : list Stocks.PriceResult :=
  map (fun t => price_result_of t (stock_outcome w t)) TICKERS.

(** ** Sample worlds and requests *)

(** An engine that knows ASCII only. *)
Definition ascii_engine : Engine :=
  mkEngine ascii_toUpperCase (fun s _ => eq_refl).

(** The string m, U+017F (long s), f, t. *)
Definition long_s_ticker : string :=
  String "m" (String "197" (String "191" "ft")).

(** An engine that also knows that the long s uppercases to S. *)
Definition long_s_uppercase (s : string) : string :=
  if is_ascii s then ascii_toUpperCase s
  else if s =? long_s_ticker then "MSFT" else ascii_toUpperCase s.

Definition long_s_engine : Engine :=
  mkEngine long_s_uppercase
    (fun s H =>
       @eq_ind_r bool true
         (fun b : bool =>
            (if b then ascii_toUpperCase s
             else if s =? long_s_ticker then "MSFT" else ascii_toUpperCase s)
            = ascii_toUpperCase s)
         eq_refl (is_ascii s) H).


Definition upstream_down : FetchCall -> FetchOutcome :=
  fun _ => NetworkError (TypeError "fetch failed").

(** Only the AAPL price is served; every other call is rate-limited. *)
Definition upstream_aapl_only : FetchCall -> FetchOutcome :=
  fun call =>
    if call_url call =? Stocks.url "AAPL" then
      Responded (mkResponse 200 "OK"
                   (BodyJson (JObject [("price", JNumber 189.5%float)])))
    else
      Responded (mkResponse 429 "Too Many Requests"
                   (BodyJson (JObject [("error", JString "rate limit")]))).

Definition world_down : World :=
  mkWorld [("API_KEY", "secret")] upstream_down "2025-11-10T15:30:00.000Z"
          ascii_engine.

Definition world_partial : World :=
  mkWorld [("API_KEY", "secret")] upstream_aapl_only "2025-11-10T15:30:00.000Z"
          ascii_engine.

Definition world_no_key : World :=
  mkWorld [] upstream_aapl_only "2025-11-10T15:30:00.000Z" ascii_engine.

Definition GET (q : list (string * QueryValue)) : Request := mkRequest "GET" q.

(** The provider answers 200 with a transcript that is the empty string. *)
Definition empty_transcript_response : Response :=
  mkResponse 200 "OK" (BodyJson (JObject [("transcript", JString "")])).

Definition world_empty_transcript : World :=
  mkWorld [("API_KEY", "secret")] (fun _ => Responded empty_transcript_response)
          "2025-11-10T15:30:00.000Z" ascii_engine.

(** The provider answers 200 with a transcript and nothing else. *)
Definition bare_transcript_response : Response :=
  mkResponse 200 "OK"
    (BodyJson (JObject [("transcript", JString "Good afternoon, everyone.")])).

Definition world_bare_transcript : World :=
  mkWorld [("API_KEY", "secret")] (fun _ => Responded bare_transcript_response)
          "2025-11-10T15:30:00.000Z" ascii_engine.

(** The provider of [world_bare_transcript] under the engine that knows
    the long s. *)
Definition world_long_s : World :=
  mkWorld [("API_KEY", "secret")] (fun _ => Responded bare_transcript_response)
          "2025-11-10T15:30:00.000Z" long_s_engine.

(** [API_KEY] is set, to the empty string. *)
Definition world_empty_key : World :=
  mkWorld [("API_KEY", "")] upstream_down "now" ascii_engine.

(** A POST, and GETs to the transcripts handler. *)
Definition POST : Request := mkRequest "POST" [].

Definition GET_ticker (t : string) : Request := GET [("ticker", QString t)].

(** [?ticker=xyz&ticker=abc] *)
Definition GET_repeated_ticker : Request :=
  GET [("ticker", QArray ["xyz"; "abc"])].

(** ** Concrete runs *)

Example stocks_all_down :
  let s' := snd (Stocks.handler world_down (GET []) fresh) in
  res_status s' = 503%N /\
  field "details" (payload s')
  = JArray (map (fun t => JObject [("ticker", JString t);
                                   ("error", JString "fetch failed")])
                TICKERS) /\
  map call_url (fetch_log s') = map Stocks.url TICKERS.
Proof. repeat split. Qed.

Example stocks_partial :
  payload (snd (Stocks.handler world_partial (GET []) fresh))
  = JObject
      [ ("timestamp", JString "2025-11-10T15:30:00.000Z");
        ("stocks", JArray
           [ JObject [ ("ticker", JString "AAPL");
                       ("companyName", JString "Apple Inc.");
                       ("price", JNumber 189.5%float) ] ]);
        ("metadata", JObject
           [ ("total", JNumber 5%float);
             ("successful", JNumber 1%float);
             ("failed", JNumber 4%float) ]);
        ("warnings", JArray
           (map (fun t => JObject [ ("ticker", JString t);
                                    ("companyName", Stocks.company t);
                                    ("message", JString "Failed to fetch data") ])
                ["MSFT"; "GOOGL"; "META"; "AMZN"])) ].
Proof. reflexivity. Qed.

Example preflight :
  snd (Transcripts.handler world_no_key (mkRequest "OPTIONS" []) fresh)
  = mkSt [ ("Access-Control-Allow-Credentials", JBool true);
           ("Access-Control-Allow-Origin", JString "*");
           ("Access-Control-Allow-Methods", JString "GET,OPTIONS");
           ("Access-Control-Allow-Headers", JString "Content-Type") ]
         200 Ended [] [].
Proof. reflexivity. Qed.

Example transcript_long_s :
  let s' := snd (Transcripts.handler world_long_s (GET_ticker long_s_ticker) fresh) in
  matches_allow_list world_long_s long_s_ticker = true /\
  res_status s' = 200%N /\
  field "ticker" (field "data" (payload s')) = JString "MSFT" /\
  map call_url (fetch_log s')
  = ["https://api.api-ninjas.com/v1/earningstranscript?ticker=MSFT"].
Proof. repeat split. Qed.

Example transcript_lowercase :
  let s' := snd (Transcripts.handler world_bare_transcript (GET_ticker "msft") fresh) in
  res_status s' = 200%N /\
  field "ticker" (field "data" (payload s')) = JString "MSFT" /\
  field "participants" (field "data" (payload s')) = JArray [] /\
  map call_url (fetch_log s')
  = ["https://api.api-ninjas.com/v1/earningstranscript?ticker=MSFT"].
Proof. repeat split. Qed.

(** ** The monad and the runtime primitives *)

Lemma client_frame_refl (s : St) : client_frame [] s s.
Proof. unfold client_frame. rewrite app_nil_r. tauto. Qed.

Lemma client_frame_trans (c1 c2 : list FetchCall) (s1 s2 s3 : St) :
  client_frame c1 s1 s2 -> client_frame c2 s2 s3 ->
  client_frame (c1 ++ c2) s1 s3.
Proof.
  intros (H1 & H2 & H3 & H4) (K1 & K2 & K3 & K4).
  unfold client_frame.
  rewrite K1, K2, K3, K4, H1, H2, H3, H4, app_assoc. tauto.
Qed.

Lemma bind_run {A B : Type} (m : M A) (k : A -> M B) (s s1 : St) (a : A) :
  m s = (Normal a, s1) -> bind m k s = k a s1.
Proof. intros E. unfold bind. rewrite E. reflexivity. Qed.

Lemma bind_ret {A B : Type} (a : A) (k : A -> M B) : bind (ret a) k = k a.
Proof. reflexivity. Qed.

Lemma get_truthy (data : JSValue) (k : string) :
  truthy data = true -> get data k = ret (field k data).
Proof. destruct data; simpl; intros H; try discriminate; reflexivity. Qed.

(** The fan-out over a list of calls that never throw collects one
    result per element, in order. *)
Lemma mapM_total {A B : Type} (f : A -> M B) (P : A -> B -> Prop)
    (call : A -> FetchCall) :
  (forall a s, exists b s',
      f a s = (Normal b, s') /\ P a b /\ client_frame [call a] s s') ->
  forall l s, exists bs s',
      mapM f l s = (Normal bs, s') /\ Forall2 P l bs /\
      client_frame (map call l) s s'.
Proof.
  intros Hf l. induction l as [|a l IH]; intros s; simpl.
  - exists [], s. split; [reflexivity | split; [constructor | apply client_frame_refl]].
  - destruct (Hf a s) as (b & s1 & E1 & Pb & F1).
    destruct (IH s1) as (bs & s2 & E2 & Pbs & F2).
    exists (b :: bs), s2. unfold bind. rewrite E1, E2. unfold ret.
    split; [reflexivity | split; [constructor; assumption |]].
    exact (client_frame_trans [call a] (map call l) s s1 s2 F1 F2).
Qed.

(** ** The stock client *)

Ltac frame_one :=
  unfold client_frame; simpl; repeat split; reflexivity.

Lemma fetchStockPrice_returns (w : World) (apiKey : JSValue) (t : string) :
  exists r,
    stock_returns w apiKey t r /\
    Stocks.ticker r = t /\
    Stocks.companyName r = Stocks.company t /\
    Stocks.success r = price_ok (upstream w (stock_call apiKey t)) /\
    price_result_shape r.
Proof.
  unfold stock_returns, Stocks.fetchStockPrice, try_catch, bind, fetch,
    price_result_shape.
  fold (stock_call apiKey t).
  destruct (upstream w (stock_call apiKey t)) as [e | r]; simpl.
  - eexists; split; [intros ?; eexists; split; [reflexivity | frame_one] |].
    simpl; repeat split; eauto.
  - destruct (ok r); simpl.
    + unfold json. destruct (body r) as [e | data]; simpl.
      * eexists; split; [intros ?; eexists; split; [reflexivity | frame_one] |].
        simpl; repeat split; eauto.
      * destruct (truthy data) eqn:Ht; simpl.
        -- rewrite (get_truthy data "price" Ht). unfold ret.
           destruct (field "price" data) eqn:Hp; simpl;
             (eexists; split;
              [intros ?; eexists; split; [reflexivity | frame_one] |]);
             simpl; repeat split; eauto.
        -- eexists; split; [intros ?; eexists; split; [reflexivity | frame_one] |].
           simpl; repeat split; eauto.
    + eexists; split; [intros ?; eexists; split; [reflexivity | frame_one] |].
      simpl; repeat split; eauto.
Qed.

(** ** The stocks handler *)

Lemma stocks_tickers : keys Stocks.COMPANIES = TICKERS.
Proof. reflexivity. Qed.

Lemma stocks_handler_GET (w : World) (req : Request) (s : St) :
  method req = "GET" ->
  Stocks.handler w req s
  = try_catch (Stocks.try_block w) Stocks.catch_block (with_cors s).
Proof.
  intros Hm. unfold Stocks.handler, bind, res.setHeader. simpl.
  rewrite Hm. reflexivity.
Qed.

Lemma stocks_fanout (w : World) (apiKey : JSValue) (s : St) :
  exists results s1,
    mapM (fun t => Stocks.fetchStockPrice w t apiKey) TICKERS s
    = (Normal results, s1) /\
    Forall2 (stock_fact w apiKey) TICKERS results /\
    client_frame (map (stock_call apiKey) TICKERS) s s1.
Proof.
  apply mapM_total. intros t s0.
  destruct (fetchStockPrice_returns w apiKey t) as (r & Hr & Hfacts).
  destruct (Hr s0) as (s' & E & F).
  exists r, s'. unfold stock_fact. auto.
Qed.

(** A GET with the key configured always completes normally, after one
    call per ticker, with the status and payload fixed by the Results. *)
Lemma stocks_GET_run (w : World) (req : Request) (s : St) :
  method req = "GET" ->
  truthy (process_env w "API_KEY") = true ->
  exists results s',
    Stocks.handler w req s = (Normal tt, s') /\
    Forall2 (stock_fact w (process_env w "API_KEY")) TICKERS results /\
    fetch_log s' = fetch_log s ++ map (stock_call (process_env w "API_KEY")) TICKERS /\
    (filter Stocks.success results = [] ->
       res_status s' = 503%N /\
       payload s' = JObject
         [ ("error", JString "Service unavailable");
           ("message", JString "Unable to fetch stock data from API");
           ("details", JArray (map Stocks.detail_entry (filter failed results))) ]) /\
    (filter Stocks.success results <> [] ->
       res_status s' = 200%N /\
       payload s' = JObject
         ([ ("timestamp", JString (clock w));
            ("stocks", JArray (map Stocks.stock_entry (filter Stocks.success results)));
            ("metadata", JObject
               [ ("total", JNumber (number_of_nat 5));
                 ("successful", JNumber (number_of_nat (List.length (filter Stocks.success results))));
                 ("failed", JNumber (number_of_nat (List.length (filter failed results)))) ]) ]
          ++ match filter failed results with
             | [] => []
             | _ :: _ => [ ("warnings", JArray (map Stocks.warning_entry (filter failed results))) ]
             end)).
Proof.
  intros Hm Hk. rewrite (stocks_handler_GET w req s Hm).
  destruct (stocks_fanout w (process_env w "API_KEY") (with_cors s))
    as (results & s1 & E & F & Fr).
  unfold try_catch, Stocks.try_block. rewrite Hk.
  change (negb true) with false. cbv iota.
  rewrite stocks_tickers, (bind_run _ _ _ _ _ E).
  fold failed.
  destruct Fr as (_ & _ & _ & Hlog).
  exists results.
  destruct (filter Stocks.success results) as [|g good];
    [| destruct (filter failed results) as [|b bad]];
    (eexists; split; [reflexivity |]; split; [exact F |];
     split; [exact Hlog |]; split;
     [intros H; try discriminate H; split; reflexivity
     |intros H; try contradiction; split; reflexivity]).
Qed.

Lemma filter_nil_existsb {A : Type} (f : A -> bool) (l : list A) :
  filter f l = [] <-> existsb f l = false.
Proof.
  induction l as [|a l IH]; simpl; [tauto |].
  destruct (f a); simpl; [split; discriminate | exact IH].
Qed.

Lemma filter_cons_existsb {A : Type} (f : A -> bool) (l : list A) :
  filter f l <> [] <-> existsb f l = true.
Proof.
  rewrite filter_nil_existsb. destruct (existsb f l); split; congruence.
Qed.

Lemma filter_split_length {A : Type} (f : A -> bool) (l : list A) :
  (List.length (filter f l) + List.length (filter (fun x => negb (f x)) l)
   = List.length l)%nat.
Proof.
  induction l as [|a l IH]; simpl; [reflexivity |].
  destruct (f a); simpl; lia.
Qed.

(** The Results are in ticker order, so filtering them by their flag is
    filtering the tickers by the outcome of their call. *)
Lemma facts_filter (w : World) (k : JSValue) (ts : list string)
    (rs : list Stocks.PriceResult) :
  Forall2 (stock_fact w k) ts rs ->
  map Stocks.ticker (filter Stocks.success rs)
  = filter (fun t => price_ok (upstream w (stock_call k t))) ts /\
  map Stocks.ticker (filter failed rs)
  = filter (fun t => negb (price_ok (upstream w (stock_call k t)))) ts.
Proof.
  induction 1 as [|t r ts rs (_ & Ht & _ & Hs & _) _ (IH1 & IH2)]; simpl;
    [split; reflexivity |].
  unfold failed at 1. rewrite Hs.
  destruct (price_ok (upstream w (stock_call k t))); simpl;
    rewrite ?Ht, IH1, IH2; split; reflexivity.
Qed.



Lemma filter_all {A : Type} (f : A -> bool) (l : list A) :
  existsb f l = false -> filter (fun x => negb (f x)) l = l.
Proof.
  induction l as [|a l IH]; simpl; [reflexivity |].
  destruct (f a); simpl; [discriminate | intros H; rewrite IH; auto].
Qed.

(** Every vector of five upstream outcomes is the behaviour of some
    provider, so a property of all worlds is a property of all vectors. *)
Lemma every_outcome_vector (apiKey : JSValue) (outcomes : list FetchOutcome) :
  List.length outcomes = List.length TICKERS ->
  map (fun t => upstream_of_outcomes outcomes (stock_call apiKey t)) TICKERS
  = outcomes.
Proof.
  destruct outcomes as [|o1 [|o2 [|o3 [|o4 [|o5 [|o6 rest]]]]]];
    try discriminate.
  reflexivity.
Qed.

Lemma warning_tickers (l : list Stocks.PriceResult) :
  map (field "ticker") (map Stocks.warning_entry l)
  = map JString (map Stocks.ticker l).
Proof. rewrite !map_map. reflexivity. Qed.

Lemma stock_tickers (l : list Stocks.PriceResult) :
  map (field "ticker") (map Stocks.stock_entry l)
  = map JString (map Stocks.ticker l).
Proof. rewrite !map_map. reflexivity. Qed.

Lemma detail_tickers (l : list Stocks.PriceResult) :
  map (field "ticker") (map Stocks.detail_entry l)
  = map JString (map Stocks.ticker l).
Proof. rewrite !map_map. reflexivity. Qed.



(** ** Requests that never reach the provider *)

Lemma stocks_GET_no_key (w : World) (req : Request) (s : St) :
  method req = "GET" ->
  truthy (process_env w "API_KEY") = false ->
  let s' := snd (Stocks.handler w req s) in
  fst (Stocks.handler w req s) = Normal tt /\
  res_status s' = 500%N /\
  payload s' = config_error_payload /\
  fetch_log s' = fetch_log s.
Proof.
  intros Hm Hk. rewrite (stocks_handler_GET w req s Hm).
  unfold try_catch, Stocks.try_block. rewrite Hk. cbn. auto.
Qed.

Lemma stocks_other_method (w : World) (req : Request) (s : St) :
  method req <> "OPTIONS" ->
  method req <> "GET" ->
  let s' := snd (Stocks.handler w req s) in
  fst (Stocks.handler w req s) = Normal tt /\
  res_status s' = 405%N /\
  payload s' = method_error_payload /\
  fetch_log s' = fetch_log s.
Proof.
  intros Ho Hg. apply String.eqb_neq in Ho, Hg.
  unfold Stocks.handler, bind, res.setHeader. cbn. rewrite Ho, Hg. cbn. auto.
Qed.

Lemma transcripts_handler_GET (w : World) (req : Request) (s : St) :
  method req = "GET" ->
  Transcripts.handler w req s
  = try_catch (Transcripts.try_block w req) Transcripts.catch_block (with_cors s).
Proof.
  intros Hm. unfold Transcripts.handler, bind, res.setHeader. simpl.
  rewrite Hm. reflexivity.
Qed.

Lemma transcripts_GET_no_key (w : World) (req : Request) (s : St) :
  method req = "GET" ->
  truthy (process_env w "API_KEY") = false ->
  let s' := snd (Transcripts.handler w req s) in
  fst (Transcripts.handler w req s) = Normal tt /\
  res_status s' = 500%N /\
  payload s' = config_error_payload /\
  fetch_log s' = fetch_log s.
Proof.
  intros Hm Hk. rewrite (transcripts_handler_GET w req s Hm).
  unfold try_catch, Transcripts.try_block. rewrite Hk. cbn. auto.
Qed.

Lemma transcripts_other_method (w : World) (req : Request) (s : St) :
  method req <> "OPTIONS" ->
  method req <> "GET" ->
  let s' := snd (Transcripts.handler w req s) in
  fst (Transcripts.handler w req s) = Normal tt /\
  res_status s' = 405%N /\
  payload s' = method_error_payload /\
  fetch_log s' = fetch_log s.
Proof.
  intros Ho Hg. apply String.eqb_neq in Ho, Hg.
  unfold Transcripts.handler, bind, res.setHeader. cbn. rewrite Ho, Hg. cbn. auto.
Qed.

(** ** Counts and order in the stocks response *)

Lemma counts_add (a b : nat) :
  (a + b = 5)%nat ->
  (number_of_nat a + number_of_nat b)%float = number_of_nat 5.
Proof.
  intros H.
  destruct a as [|[|[|[|[|[|a]]]]]]; try lia;
    destruct b as [|[|[|[|[|[|b]]]]]]; try lia; reflexivity.
Qed.

(** C3: the counts of a 200 data response.  Whatever the provider
    answers, when a GET to the stocks handler is answered with status 200,
    [metadata.total] is the size of the fixed ticker set, 5;
    [metadata.successful + metadata.failed] equals [metadata.total]; and
    [stocks] has [metadata.successful] entries. *)
Theorem stocks_metadata_counts (w : World) (req : Request) (s : St) :
  method req = "GET" ->
  res_status (snd (Stocks.handler w req s)) = 200%N ->
  let p := payload (snd (Stocks.handler w req s)) in
  let metadata := field "metadata" p in
  exists successful failed : nat,
    field "total" metadata = JNumber (number_of_nat (List.length TICKERS)) /\
    List.length TICKERS = 5%nat /\
    field "successful" metadata = JNumber (number_of_nat successful) /\
    field "failed" metadata = JNumber (number_of_nat failed) /\
    (successful + failed = 5)%nat /\
    (number_of_nat successful + number_of_nat failed)%float
    = number_of_nat (List.length TICKERS) /\
    List.length (elements (field "stocks" p)) = successful.
Proof.
  intros Hm Hst.
  destruct (truthy (process_env w "API_KEY")) eqn:Hk.
  2:{ destruct (stocks_GET_no_key w req s Hm Hk) as (_ & H500 & _).
      rewrite H500 in Hst. discriminate. }
  destruct (stocks_GET_run w req s Hm Hk)
    as (results & s1 & E & F & _ & H503 & H200).
  rewrite E in Hst |- *. cbn [snd] in Hst |- *.
  destruct (filter Stocks.success results) as [|g good] eqn:Hgood.
  { destruct (H503 eq_refl) as (H & _). rewrite H in Hst. discriminate. }
  destruct (H200 ltac:(discriminate)) as (_ & Hp).
  assert (Hlen : List.length results = 5%nat).
  { rewrite <- (Forall2_length F). reflexivity. }
  assert (Hsum : (List.length (g :: good) + List.length (filter failed results)
                  = 5)%nat).
  { rewrite <- Hgood, <- Hlen. apply filter_split_length. }
  exists (List.length (g :: good)), (List.length (filter failed results)).
  rewrite Hp. cbn [field lookup String.eqb Ascii.eqb Bool.eqb elements app].
  rewrite length_map.
  repeat split; try reflexivity; try exact Hsum.
  exact (counts_add _ _ Hsum).
Qed.

Lemma stocks_metadata_counts_witness :
  method (GET []) = "GET" /\
  res_status (snd (Stocks.handler world_partial (GET []) fresh)) = 200%N /\
  field "total"
    (field "metadata" (payload (snd (Stocks.handler world_partial (GET []) fresh))))
  = JNumber 5%float.
Proof.
  split; [reflexivity |]. split; [reflexivity |].
  destruct (stocks_metadata_counts world_partial (GET []) fresh eq_refl eq_refl)
    as (a & b & Htotal & _).
  exact Htotal.
Defined.

(** C9: the stocks handler keeps the fixed ticker order.  For a GET with
    the key configured, the tickers of [stocks] (status 200) are the
    tickers AAPL, MSFT, GOOGL, META, AMZN whose fetch succeeded, in that
    order, and the tickers of [warnings] (status 200) and of [details]
    (status 503) are the tickers whose fetch failed, in that order. *)
Theorem stocks_order_preserved (w : World) (req : Request) (s : St) :
  method req = "GET" ->
  truthy (process_env w "API_KEY") = true ->
  let s' := snd (Stocks.handler w req s) in
  let tickers_of (name : string) :=
    map (field "ticker") (elements (field name (payload s'))) in
  TICKERS = ["AAPL"; "MSFT"; "GOOGL"; "META"; "AMZN"] /\
  (res_status s' = 200%N ->
     tickers_of "stocks" = map JString (filter (succeeded w) TICKERS) /\
     tickers_of "warnings"
     = map JString (filter (fun t => negb (succeeded w t)) TICKERS)) /\
  (res_status s' = 503%N ->
     tickers_of "details"
     = map JString (filter (fun t => negb (succeeded w t)) TICKERS)).
Proof.
  intros Hm Hk.
  destruct (stocks_GET_run w req s Hm Hk)
    as (results & s1 & E & F & _ & H503 & H200).
  rewrite E. cbn [snd].
  destruct (facts_filter _ _ _ _ F) as (Hgood & Hbad).
  fold (succeeded w) in Hgood.
  change (fun t => negb (price_ok (upstream w (stock_call (process_env w "API_KEY") t))))
    with (fun t => negb (succeeded w t)) in Hbad.
  rewrite <- Hgood, <- Hbad.
  split; [reflexivity |].
  destruct (filter Stocks.success results) as [|g good] eqn:Hg.
  - destruct (H503 eq_refl) as (Hst & Hp). rewrite Hst, Hp. split.
    + discriminate.
    + intros _. cbn [field lookup String.eqb Ascii.eqb Bool.eqb elements].
      apply detail_tickers.
  - destruct (H200 ltac:(discriminate)) as (Hst & Hp). rewrite Hst, Hp. split.
    + intros _. split.
      * cbn [field lookup String.eqb Ascii.eqb Bool.eqb elements app].
        apply stock_tickers.
      * destruct (filter failed results) as [|b bad]; [reflexivity |].
        cbn [field lookup String.eqb Ascii.eqb Bool.eqb elements app].
        apply warning_tickers.
    + discriminate.
Qed.

Lemma stocks_order_preserved_witness :
  method (GET []) = "GET" /\
  truthy (process_env world_partial "API_KEY") = true /\
  map (field "ticker")
    (elements (field "warnings"
                 (payload (snd (Stocks.handler world_partial (GET []) fresh)))))
  = [JString "MSFT"; JString "GOOGL"; JString "META"; JString "AMZN"].
Proof.
  split; [reflexivity |]. split; [reflexivity |].
  destruct (stocks_order_preserved world_partial (GET []) fresh eq_refl eq_refl)
    as (_ & H200 & _).
  exact (proj2 (H200 eq_refl)).
Defined.

(** ** The transcript client *)

Lemma fetchEarningsTranscript_returns (w : World) (apiKey : JSValue)
    (t : string) :
  exists r,
    transcript_returns w apiKey t r /\
    Transcripts.ticker r = t /\
    Transcripts.companyName r = Transcripts.company t /\
    Transcripts.success r = transcript_ok (upstream w (transcript_call apiKey t)) /\
    transcript_result_shape r /\
    (Transcripts.success r = true ->
     exists resp data,
       upstream w (transcript_call apiKey t) = Responded resp /\
       body resp = BodyJson data /\ carries data r).
Proof.
  unfold transcript_returns, Transcripts.fetchEarningsTranscript, try_catch,
    bind, fetch, transcript_result_shape.
  fold (transcript_call apiKey t).
  destruct (upstream w (transcript_call apiKey t)) as [e | r]; simpl.
  - eexists; split; [intros ?; eexists; split; [reflexivity | frame_one] |].
    simpl; repeat split; eauto; discriminate.
  - destruct (ok r); simpl.
    + unfold json. destruct (body r) as [e | data] eqn:Hbody; simpl.
      * eexists; split; [intros ?; eexists; split; [reflexivity | frame_one] |].
        simpl; repeat split; eauto; discriminate.
      * destruct (truthy data) eqn:Ht; simpl.
        -- rewrite !(get_truthy data _ Ht). unfold ret.
           destruct (truthy (field "transcript" data)) eqn:Htr; simpl.
           ++ eexists; split;
                [intros ?; eexists; split; [reflexivity | frame_one] |].
              simpl. repeat split; eauto.
              intros _. exists r, data. unfold carries. simpl. auto 10.
           ++ eexists; split;
                [intros ?; eexists; split; [reflexivity | frame_one] |].
              simpl; repeat split; eauto; discriminate.
        -- eexists; split; [intros ?; eexists; split; [reflexivity | frame_one] |].
           simpl; repeat split; eauto; discriminate.
    + eexists; split; [intros ?; eexists; split; [reflexivity | frame_one] |].
      simpl; repeat split; eauto; discriminate.
Qed.

(** C2: a client call always returns a Result and never throws.  For
    every supported ticker, every key and every upstream outcome (network
    failure, non-2xx status, unparseable body, any parsed body),
    [fetchStockPrice] and [fetchEarningsTranscript] complete normally,
    and the Result is of exactly one of two kinds: [success = true] with
    the payload (a numeric price for the stock client) and no error, or
    [success = false] with an error string and no payload (a null price
    for the stock client). *)
Theorem clients_return_results (w : World) (t : string) (apiKey : JSValue)
    (s : St) :
  In t TICKERS ->
  (exists r s',
     Stocks.fetchStockPrice w t apiKey s = (Normal r, s') /\
     (Stocks.success r = true /\
      (exists x, Stocks.price r = JNumber x) /\ Stocks.error r = JUndefined
      \/
      Stocks.success r = false /\
      Stocks.price r = JNull /\ exists msg, Stocks.error r = JString msg))
  /\
  (exists r s',
     Transcripts.fetchEarningsTranscript w t apiKey s = (Normal r, s') /\
     (Transcripts.success r = true /\
      truthy (Transcripts.transcript r) = true /\
      Transcripts.error r = JUndefined
      \/
      Transcripts.success r = false /\
      Transcripts.transcript r = JUndefined /\
      exists msg, Transcripts.error r = JString msg)).
Proof.
  intros _. split.
  - destruct (fetchStockPrice_returns w apiKey t) as (r & Hr & _ & _ & _ & Hshape).
    destruct (Hr s) as (s' & E & _). exists r, s'. split; [exact E | exact Hshape].
  - destruct (fetchEarningsTranscript_returns w apiKey t)
      as (r & Hr & _ & _ & _ & Hshape & _).
    destruct (Hr s) as (s' & E & _). exists r, s'. split; [exact E | exact Hshape].
Qed.

Lemma clients_return_results_witness :
  In "GOOGL" TICKERS /\
  exists r s',
    Stocks.fetchStockPrice world_partial "GOOGL" (JString "secret") fresh
    = (Normal r, s') /\
    (Stocks.success r = true /\
     (exists x, Stocks.price r = JNumber x) /\ Stocks.error r = JUndefined
     \/
     Stocks.success r = false /\
     Stocks.price r = JNull /\ exists msg, Stocks.error r = JString msg).
Proof.
  assert (H : In "GOOGL" TICKERS) by (simpl; auto).
  split; [exact H |].
  exact (proj1 (clients_return_results world_partial "GOOGL" (JString "secret")
                  fresh H)).
Defined.

Lemma transcript_failure_ok (o : FetchOutcome) :
  transcript_failure o <-> transcript_ok o = false.
Proof.
  destruct o as [e | resp]; simpl; [tauto |].
  destruct (ok resp); simpl.
  - destruct (body resp) as [e | data]; [tauto |].
    destruct (truthy data); simpl.
    + destruct (truthy (field "transcript" data)); intuition congruence.
    + tauto.
  - tauto.
Qed.

Lemma or_else_absent (k : string) (data : JSValue) :
  has_field k data = false -> or_else (field k data) (JArray []) = JArray [].
Proof.
  destruct data; simpl; try reflexivity.
  destruct (lookup k props); [discriminate | reflexivity].
Qed.

(** C8 as stated fails: a 200 response whose body has a [transcript]
    field holding the empty string is turned into a failure Result. *)
Lemma transcript_failure_counterexample :
  upstream world_empty_transcript (transcript_call (JString "secret") "MSFT")
  = Responded empty_transcript_response /\
  ok empty_transcript_response = true /\
  body empty_transcript_response
  = BodyJson (JObject [("transcript", JString "")]) /\
  has_field "transcript" (JObject [("transcript", JString "")]) = true /\
  non_2xx_or_no_transcript_field (Responded empty_transcript_response) = false /\
  fst (Transcripts.fetchEarningsTranscript world_empty_transcript "MSFT"
         (JString "secret") fresh)
  = Normal (Transcripts.mkTranscriptResult "MSFT" (JString "Microsoft Corporation")
              JUndefined JUndefined JUndefined JUndefined JUndefined
              JUndefined JUndefined JUndefined false
              (JString "No transcript data available for MSFT")).
Proof. repeat split. Qed.

(** C8, amended: [fetchEarningsTranscript] always returns a Result; the
    Result is a failure exactly when the call got no response, the
    status is outside 200-299, the body does not parse, the parsed body
    is falsy, or its [transcript] is absent or falsy (empty string, null,
    0, false).  A success Result carries the date, timestamp, year,
    quarter, earnings timing and transcript of the body, and its
    [participants] and [transcriptSplit] are empty arrays when the body
    has no such field. *)
Theorem transcript_client_contract (w : World) (t : string) (apiKey : JSValue)
    (s : St) :
  let o := upstream w (transcript_call apiKey t) in
  exists r s',
    Transcripts.fetchEarningsTranscript w t apiKey s = (Normal r, s') /\
    (Transcripts.success r = false <-> transcript_failure o) /\
    (Transcripts.success r = true ->
     exists resp data,
       o = Responded resp /\ body resp = BodyJson data /\
       carries data r /\
       (has_field "participants" data = false ->
        Transcripts.participants r = JArray []) /\
       (has_field "transcript_split" data = false ->
        Transcripts.transcriptSplit r = JArray [])).
Proof.
  intros o.
  destruct (fetchEarningsTranscript_returns w apiKey t)
    as (r & Hr & _ & _ & Hs & _ & Hfields).
  destruct (Hr s) as (s' & E & _). exists r, s'. split; [exact E |].
  fold o in Hs, Hfields. split.
  - rewrite transcript_failure_ok, Hs. tauto.
  - intros Hok. destruct (Hfields Hok) as (resp & data & Ho & Hb & Hc).
    exists resp, data.
    split; [exact Ho |]. split; [exact Hb |]. split; [exact Hc |]. split.
    + intros Habs. destruct Hc as (_ & _ & _ & _ & _ & _ & Hp & _).
      rewrite Hp. apply or_else_absent, Habs.
    + intros Habs. destruct Hc as (_ & _ & _ & _ & _ & _ & _ & Hsp).
      rewrite Hsp. apply or_else_absent, Habs.
Qed.

(** ** Missing configuration *)

(** C4 as stated fails: with no API key in the environment, a POST (a
    method other than OPTIONS) is answered 405 by both handlers, not
    500: the method check comes before the configuration check. *)
Lemma missing_key_counterexample :
  process_env world_no_key "API_KEY" = JUndefined /\
  method POST <> "OPTIONS" /\
  res_status (snd (Stocks.handler world_no_key POST fresh)) = 405%N /\
  res_status (snd (Transcripts.handler world_no_key POST fresh)) = 405%N.
Proof. repeat split. discriminate. Qed.

(** C4, amended: when the API key is absent (or empty), both handlers
    answer every GET with status 500 and the configuration-error
    payload, answer every method other than GET and OPTIONS with status
    405, and in both cases make no upstream call. *)
Theorem missing_key_blocks_upstream (w : World) (req : Request) (s : St) :
  truthy (process_env w "API_KEY") = false ->
  method req <> "OPTIONS" ->
  let ss := snd (Stocks.handler w req s) in
  let st := snd (Transcripts.handler w req s) in
  fst (Stocks.handler w req s) = Normal tt /\
  fst (Transcripts.handler w req s) = Normal tt /\
  fetch_log ss = fetch_log s /\
  fetch_log st = fetch_log s /\
  (method req = "GET" ->
     res_status ss = 500%N /\ payload ss = config_error_payload /\
     res_status st = 500%N /\ payload st = config_error_payload) /\
  (method req <> "GET" ->
     res_status ss = 405%N /\ res_status st = 405%N).
Proof.
  intros Hk Ho.
  destruct (String.eqb_spec (method req) "GET") as [Hg | Hg].
  - destruct (stocks_GET_no_key w req s Hg Hk) as (A1 & A2 & A3 & A4).
    destruct (transcripts_GET_no_key w req s Hg Hk) as (B1 & B2 & B3 & B4).
    cbv zeta. split; [exact A1 |]. split; [exact B1 |].
    split; [exact A4 |]. split; [exact B4 |].
    split; [intros _; auto | intros H; contradiction].
  - destruct (stocks_other_method w req s Ho Hg) as (A1 & A2 & A3 & A4).
    destruct (transcripts_other_method w req s Ho Hg) as (B1 & B2 & B3 & B4).
    cbv zeta. split; [exact A1 |]. split; [exact B1 |].
    split; [exact A4 |]. split; [exact B4 |].
    split; [intros H; contradiction | intros _; auto].
Qed.

Lemma missing_key_blocks_upstream_witness :
  truthy (process_env world_no_key "API_KEY") = false /\
  method (GET []) <> "OPTIONS" /\
  res_status (snd (Stocks.handler world_no_key (GET []) fresh)) = 500%N /\
  fetch_log (snd (Stocks.handler world_no_key (GET []) fresh)) = [].
Proof.
  split; [reflexivity |]. split; [discriminate |].
  destruct (missing_key_blocks_upstream world_no_key (GET []) fresh eq_refl
              ltac:(discriminate))
    as (_ & _ & Hlog & _ & H500 & _).
  split; [exact (proj1 (H500 eq_refl)) | exact Hlog].
Defined.

(** ** Unexpected exceptions *)

(** The [try] block of the stocks handler never throws: the client
    absorbs every upstream failure. *)
Lemma stocks_try_block_total (w : World) (s : St) :
  exists s', Stocks.try_block w s = (Normal tt, s').
Proof.
  unfold Stocks.try_block.
  destruct (truthy (process_env w "API_KEY")); cbn [negb].
  - destruct (stocks_fanout w (process_env w "API_KEY") s)
      as (results & s1 & E & _).
    rewrite stocks_tickers, (bind_run _ _ _ _ _ E).
    destruct (List.length (filter Stocks.success results) =? 0)%nat;
      eexists; reflexivity.
  - eexists; reflexivity.
Qed.

(** C5 as stated fails: a GET to the transcripts handler with a repeated
    [ticker] parameter makes [ticker.toUpperCase()] throw inside the
    [try] block; the answer is 500, and its [details] field is the
    message of that exception. *)
Lemma internal_detail_counterexample :
  fst (Transcripts.try_block world_partial GET_repeated_ticker (with_cors fresh))
  = Throw (TypeError "ticker.toUpperCase is not a function") /\
  res_status (snd (Transcripts.handler world_partial GET_repeated_ticker fresh))
  = 500%N /\
  field "details"
    (payload (snd (Transcripts.handler world_partial GET_repeated_ticker fresh)))
  = JString (message (TypeError "ticker.toUpperCase is not a function")).
Proof. repeat split. Qed.

(** C5, amended: in both handlers the work of a GET runs inside a [try]
    block, and whenever that block throws an exception [e] the handler
    completes normally with status 500 and a payload made of the fixed
    [error] and [message] texts plus a [details] field holding the message
    of [e]; the exception itself goes to the console. *)
Theorem unexpected_exception_answer (w : World) (req : Request) (s : St) :
  method req = "GET" ->
  Stocks.handler w req s
  = try_catch (Stocks.try_block w) Stocks.catch_block (with_cors s) /\
  Transcripts.handler w req s
  = try_catch (Transcripts.try_block w req) Transcripts.catch_block (with_cors s) /\
  forall (block : M unit) (e : JSError) (s0 s1 : St),
    block s0 = (Throw e, s1) ->
    (let s' := snd (try_catch block Stocks.catch_block s0) in
     fst (try_catch block Stocks.catch_block s0) = Normal tt /\
     res_status s' = 500%N /\
     payload s' = JObject
       [ ("error", JString "Internal server error");
         ("message", JString "An unexpected error occurred while fetching stock data");
         ("details", JString (message e)) ] /\
     console_log s'
     = console_log s1
       ++ [[LogString "Unexpected error in stocks API:"; LogError e]]) /\
    (let s' := snd (try_catch block Transcripts.catch_block s0) in
     fst (try_catch block Transcripts.catch_block s0) = Normal tt /\
     res_status s' = 500%N /\
     payload s' = JObject
       [ ("error", JString "Internal server error");
         ("message", JString "An unexpected error occurred while fetching transcript data");
         ("details", JString (message e)) ] /\
     console_log s'
     = console_log s1
       ++ [[LogString "Unexpected error in transcripts API:"; LogError e]]).
Proof.
  intros Hm.
  split; [exact (stocks_handler_GET w req s Hm) |].
  split; [exact (transcripts_handler_GET w req s Hm) |].
  intros block e s0 s1 E. unfold try_catch. rewrite E.
  split; cbn; auto.
Qed.

Lemma unexpected_exception_answer_witness :
  method GET_repeated_ticker = "GET" /\
  Transcripts.try_block world_partial GET_repeated_ticker (with_cors fresh)
  = (Throw (TypeError "ticker.toUpperCase is not a function"), with_cors fresh) /\
  res_status (snd (Transcripts.handler world_partial GET_repeated_ticker fresh))
  = 500%N.
Proof.
  split; [reflexivity |]. split; [reflexivity |].
  destruct (unexpected_exception_answer world_partial GET_repeated_ticker fresh
              eq_refl) as (_ & Hhandler & Hcatch).
  rewrite Hhandler.
  destruct (Hcatch (Transcripts.try_block world_partial GET_repeated_ticker)
              (TypeError "ticker.toUpperCase is not a function")
              (with_cors fresh) (with_cors fresh) eq_refl)
    as (_ & _ & Hstatus & _).
  exact Hstatus.
Defined.

(** ** Ticker validation in the transcripts handler *)

Lemma company_truthy (u : string) :
  truthy (Transcripts.company u) = existsb (fun k => k =? u) TICKERS.
Proof.
  unfold Transcripts.company, Transcripts.COMPANIES, TICKERS.
  cbn [lookup existsb].
  repeat (destruct (_ =? u); [reflexivity |]). reflexivity.
Qed.

Lemma transcripts_missing_ticker (w : World) (req : Request) (s : St) :
  method req = "GET" ->
  truthy (process_env w "API_KEY") = true ->
  Transcripts.missing (query_param req "ticker") = true ->
  let s' := snd (Transcripts.handler w req s) in
  fst (Transcripts.handler w req s) = Normal tt /\
  res_status s' = 200%N /\
  payload s' = discovery_payload /\
  fetch_log s' = fetch_log s.
Proof.
  intros Hm Hk Hmiss. rewrite (transcripts_handler_GET w req s Hm).
  unfold try_catch, Transcripts.try_block. rewrite Hk, Hmiss. cbn. auto.
Qed.

Lemma transcripts_invalid_ticker (w : World) (req : Request) (s : St)
    (t : string) :
  method req = "GET" ->
  truthy (process_env w "API_KEY") = true ->
  query_param req "ticker" = QString t ->
  t <> "" ->
  matches_allow_list w t = false ->
  let s' := snd (Transcripts.handler w req s) in
  fst (Transcripts.handler w req s) = Normal tt /\
  res_status s' = 400%N /\
  payload s' = invalid_ticker_payload t /\
  fetch_log s' = fetch_log s.
Proof.
  intros Hm Hk Hq Hne Hno. rewrite (transcripts_handler_GET w req s Hm).
  apply String.eqb_neq in Hne.
  assert (Hc : truthy (Transcripts.company (toUpperCase w t)) = false)
    by (rewrite company_truthy; exact Hno).
  unfold try_catch, Transcripts.try_block. rewrite Hk, Hq.
  cbn [negb Transcripts.missing Transcripts.upper]. rewrite Hne.
  unfold bind, ret. rewrite Hc. cbn. auto.
Qed.

(** C6 as stated fails: the empty string does not match the allow-list,
    yet a GET with [ticker=] is answered 200, not 400. *)
Lemma invalid_ticker_counterexample :
  query_param (GET_ticker "") "ticker" = QString "" /\
  matches_allow_list world_partial "" = false /\
  truthy (process_env world_partial "API_KEY") = true /\
  res_status (snd (Transcripts.handler world_partial (GET_ticker "") fresh))
  = 200%N.
Proof. repeat split. Qed.

(** C6, amended: with the key configured, the transcripts handler answers
    a GET without a [ticker] parameter with status 200 and the discovery
    payload listing the five supported tickers; it answers a GET whose
    [ticker] is a non-empty string that, uppercased by the engine's
    [toUpperCase] (Unicode mappings included), is not in the allow-list
    with status 400, a message naming the supplied value and the
    allow-list; neither makes an upstream call. *)
Theorem transcripts_validation (w : World) (req : Request) (s : St) :
  method req = "GET" ->
  truthy (process_env w "API_KEY") = true ->
  let s' := snd (Transcripts.handler w req s) in
  (query_param req "ticker" = QUndefined ->
     res_status s' = 200%N /\
     payload s' = JObject
       [ ("message", JString "Provide a ticker parameter to fetch transcript");
         ("availableTickers",
          JArray [JString "AAPL"; JString "MSFT"; JString "GOOGL";
                  JString "META"; JString "AMZN"]);
         ("example", JString "/api/transcripts?ticker=MSFT") ] /\
     fetch_log s' = fetch_log s) /\
  (forall t,
     query_param req "ticker" = QString t ->
     t <> "" ->
     matches_allow_list w t = false ->
     res_status s' = 400%N /\
     payload s' = JObject
       [ ("error", JString "Invalid ticker");
         ("message", JString ("Ticker '" ++ t ++ "' is not supported"));
         ("availableTickers",
          JArray [JString "AAPL"; JString "MSFT"; JString "GOOGL";
                  JString "META"; JString "AMZN"]) ] /\
     fetch_log s' = fetch_log s).
Proof.
  intros Hm Hk. split.
  - intros Hq.
    assert (Hmiss : Transcripts.missing (query_param req "ticker") = true)
      by (rewrite Hq; reflexivity).
    destruct (transcripts_missing_ticker w req s Hm Hk Hmiss) as (_ & H).
    exact H.
  - intros t Hq Hne Hno.
    destruct (transcripts_invalid_ticker w req s t Hm Hk Hq Hne Hno) as (_ & H).
    exact H.
Qed.

Lemma transcripts_validation_witness :
  method (GET_ticker "xyz") = "GET" /\
  truthy (process_env world_partial "API_KEY") = true /\
  query_param (GET_ticker "xyz") "ticker" = QString "xyz" /\
  "xyz" <> "" /\
  matches_allow_list world_partial "xyz" = false /\
  res_status (snd (Transcripts.handler world_partial (GET_ticker "xyz") fresh))
  = 400%N.
Proof.
  split; [reflexivity |]. split; [reflexivity |]. split; [reflexivity |].
  split; [discriminate |]. split; [reflexivity |].
  destruct (transcripts_validation world_partial (GET_ticker "xyz") fresh
              eq_refl eq_refl) as (_ & H400).
  exact (proj1 (H400 "xyz" eq_refl ltac:(discriminate) eq_refl)).
Defined.

(** C10: with the key configured, a GET to the transcripts handler whose
    [ticker] parameter is the empty string is answered like a GET without
    the parameter: status 200 and the discovery payload, not status 400,
    and no upstream call. *)
Theorem empty_ticker_is_missing (w : World) (req : Request) (s : St) :
  method req = "GET" ->
  truthy (process_env w "API_KEY") = true ->
  query_param req "ticker" = QString "" ->
  let s' := snd (Transcripts.handler w req s) in
  res_status s' = 200%N /\
  res_status s' <> 400%N /\
  payload s' = discovery_payload /\
  fetch_log s' = fetch_log s.
Proof.
  intros Hm Hk Hq.
  assert (Hmiss : Transcripts.missing (query_param req "ticker") = true)
    by (rewrite Hq; reflexivity).
  destruct (transcripts_missing_ticker w req s Hm Hk Hmiss) as (_ & H1 & H2 & H3).
  cbv zeta. rewrite H1. repeat split; try assumption. discriminate.
Qed.

Lemma empty_ticker_is_missing_witness :
  method (GET_ticker "") = "GET" /\
  truthy (process_env world_partial "API_KEY") = true /\
  query_param (GET_ticker "") "ticker" = QString "" /\
  payload (snd (Transcripts.handler world_partial (GET_ticker "") fresh))
  = discovery_payload.
Proof.
  split; [reflexivity |]. split; [reflexivity |]. split; [reflexivity |].
  destruct (empty_ticker_is_missing world_partial (GET_ticker "") fresh
              eq_refl eq_refl eq_refl) as (_ & _ & H & _).
  exact H.
Defined.

(** ** Case-insensitive tickers *)

Lemma toUpperCase_empty (w : World) : toUpperCase w "" = "".
Proof. apply uppercase_ascii. reflexivity. Qed.

(** The supported tickers are already uppercase. *)
Lemma toUpperCase_ticker (w : World) (k : string) :
  In k TICKERS -> toUpperCase w k = k.
Proof.
  intros H. unfold toUpperCase.
  repeat (destruct H as [<- | H]; [apply uppercase_ascii; reflexivity |]).
  contradiction.
Qed.

Lemma matches_In (w : World) (t : string) :
  matches_allow_list w t = true -> In (toUpperCase w t) TICKERS.
Proof.
  unfold matches_allow_list. intros H.
  apply existsb_exists in H. destruct H as (k & Hk & Heq).
  apply String.eqb_eq in Heq. subst. exact Hk.
Qed.

Lemma toUpperCase_idem (w : World) (t : string) :
  matches_allow_list w t = true ->
  toUpperCase w (toUpperCase w t) = toUpperCase w t.
Proof. intros H. exact (toUpperCase_ticker w _ (matches_In w t H)). Qed.

Lemma matches_nonempty (w : World) (t : string) :
  matches_allow_list w t = true -> (t =? "") = false.
Proof.
  destruct t; [| reflexivity].
  unfold matches_allow_list. rewrite toUpperCase_empty. discriminate.
Qed.

Lemma matches_empty (w : World) : matches_allow_list w "" = false.
Proof. unfold matches_allow_list. rewrite toUpperCase_empty. reflexivity. Qed.

Lemma matches_upper (w : World) (t : string) :
  matches_allow_list w t = true ->
  matches_allow_list w (toUpperCase w t) = true.
Proof.
  intros H. unfold matches_allow_list. rewrite (toUpperCase_idem w t H).
  exact H.
Qed.

(** A GET with the key configured and a ticker of the allow-list, in any
    letter case: one call for the uppercased ticker, then 503 or 200
    according to the Result. *)
Lemma transcripts_valid_ticker (w : World) (req : Request) (s : St)
    (t : string) :
  method req = "GET" ->
  truthy (process_env w "API_KEY") = true ->
  query_param req "ticker" = QString t ->
  matches_allow_list w t = true ->
  let apiKey := process_env w "API_KEY" in
  let s' := snd (Transcripts.handler w req s) in
  exists r,
    transcript_returns w apiKey (toUpperCase w t) r /\
    Transcripts.ticker r = toUpperCase w t /\
    fst (Transcripts.handler w req s) = Normal tt /\
    fetch_log s' = fetch_log s ++ [transcript_call apiKey (toUpperCase w t)] /\
    (Transcripts.success r = false ->
       res_status s' = 503%N /\
       payload s' = JObject
         [ ("error", JString "Service unavailable");
           ("message", JString ("Unable to fetch transcript for " ++ toUpperCase w t));
           ("details", Transcripts.error r) ]) /\
    (Transcripts.success r = true ->
       res_status s' = 200%N /\
       field "success" (payload s') = JBool true /\
       field "ticker" (field "data" (payload s')) = JString (toUpperCase w t) /\
       field "transcript" (field "data" (payload s')) = Transcripts.transcript r).
Proof.
  intros Hm Hk Hq Hyes. cbv zeta.
  set (apiKey := process_env w "API_KEY") in *.
  rewrite (transcripts_handler_GET w req s Hm).
  assert (Hc : truthy (Transcripts.company (toUpperCase w t)) = true)
    by (rewrite company_truthy; exact Hyes).
  destruct (fetchEarningsTranscript_returns w apiKey (toUpperCase w t))
    as (r & Hr & Hticker & _).
  destruct (Hr (with_cors s)) as (s1 & E & _ & _ & _ & Hlog).
  exists r. split; [exact Hr |]. split; [exact Hticker |].
  unfold try_catch, Transcripts.try_block. fold apiKey. rewrite Hk, Hq.
  cbn [negb Transcripts.missing Transcripts.upper].
  rewrite (matches_nonempty w t Hyes).
  unfold bind, ret. rewrite Hc. cbn [negb]. rewrite E.
  destruct (Transcripts.success r); cbn;
    (split; [reflexivity |]; split; [exact Hlog |]; split;
     intros H; try discriminate H; repeat split; try reflexivity).
  rewrite Hticker. reflexivity.
Qed.

(** C7: the transcripts handler is insensitive to the letter case of a
    supported ticker.  Two requests with the same method, one carrying
    any ticker string [t] whose uppercasing (by the engine's
    [toUpperCase], Unicode mappings included) is in the allow-list and
    the other carrying that uppercased ticker, run identically in the
    same world: same response, same upstream calls, same console lines.
    For a GET with the key configured, the one upstream call is the call
    for the uppercased ticker and the answer is 200 or 503; the payload
    names the uppercased ticker, in [data.ticker] (200) or in [message]
    (503). *)
Theorem ticker_case_insensitive (w : World) (req1 req2 : Request) (s : St)
    (t : string) :
  method req1 = method req2 ->
  query_param req1 "ticker" = QString t ->
  query_param req2 "ticker" = QString (toUpperCase w t) ->
  matches_allow_list w t = true ->
  Transcripts.handler w req1 s = Transcripts.handler w req2 s /\
  (method req1 = "GET" ->
   truthy (process_env w "API_KEY") = true ->
   let s' := snd (Transcripts.handler w req1 s) in
   fetch_log s'
   = fetch_log s
     ++ [mkCall ("https://api.api-ninjas.com/v1/earningstranscript?ticker="
                 ++ toUpperCase w t)
           "GET"
           [ ("X-Api-Key", process_env w "API_KEY");
             ("Content-Type", JString "application/json") ]] /\
   (res_status s' = 200%N \/ res_status s' = 503%N) /\
   (res_status s' = 200%N ->
    field "ticker" (field "data" (payload s')) = JString (toUpperCase w t)) /\
   (res_status s' = 503%N ->
    field "message" (payload s')
    = JString ("Unable to fetch transcript for " ++ toUpperCase w t))).
Proof.
  intros Hm Hq1 Hq2 Hyes. split.
  - unfold Transcripts.handler. rewrite Hm.
    replace (Transcripts.try_block w req1) with (Transcripts.try_block w req2);
      [reflexivity |].
    unfold Transcripts.try_block. rewrite Hq1, Hq2.
    destruct (truthy (process_env w "API_KEY")); cbn [negb]; [| reflexivity].
    cbn [Transcripts.missing Transcripts.upper].
    rewrite (matches_nonempty w t Hyes).
    rewrite (matches_nonempty w (toUpperCase w t) (matches_upper w t Hyes)).
    rewrite (toUpperCase_idem w t Hyes).
    assert (Hc : truthy (Transcripts.company (toUpperCase w t)) = true)
      by (rewrite company_truthy; exact Hyes).
    rewrite !bind_ret. cbv beta. rewrite Hc. reflexivity.
  - intros Hg Hk. cbv zeta.
    destruct (transcripts_valid_ticker w req1 s t Hg Hk Hq1 Hyes)
      as (r & _ & _ & _ & Hlog & H503 & H200).
    split; [exact Hlog |].
    destruct (Transcripts.success r).
    + destruct (H200 eq_refl) as (Hst & _ & Hticker & _).
      rewrite Hst. split; [left; reflexivity |].
      split; [intros _; exact Hticker | discriminate].
    + destruct (H503 eq_refl) as (Hst & Hp).
      rewrite Hst, Hp. split; [right; reflexivity |].
      split; [discriminate | intros _; reflexivity].
Qed.

Lemma ticker_case_insensitive_witness :
  method (GET_ticker long_s_ticker) = method (GET_ticker "MSFT") /\
  query_param (GET_ticker long_s_ticker) "ticker" = QString long_s_ticker /\
  query_param (GET_ticker "MSFT") "ticker"
  = QString (toUpperCase world_long_s long_s_ticker) /\
  matches_allow_list world_long_s long_s_ticker = true /\
  Transcripts.handler world_long_s (GET_ticker long_s_ticker) fresh
  = Transcripts.handler world_long_s (GET_ticker "MSFT") fresh /\
  field "ticker"
    (field "data"
       (payload (snd (Transcripts.handler world_long_s
                        (GET_ticker long_s_ticker) fresh))))
  = JString "MSFT".
Proof.
  split; [reflexivity |]. split; [reflexivity |]. split; [reflexivity |].
  split; [reflexivity |].
  destruct (ticker_case_insensitive world_long_s
              (GET_ticker long_s_ticker) (GET_ticker "MSFT") fresh
              long_s_ticker eq_refl eq_refl eq_refl eq_refl)
    as (Hsame & Hget).
  split; [exact Hsame |].
  destruct (Hget eq_refl eq_refl) as (_ & _ & H200 & _).
  exact (H200 eq_refl).
Defined.

(** ** The clients as functions of the upstream outcome *)

Lemma stock_client_run (w : World) (t : string) (apiKey : JSValue) (s : St) :
  let call := stock_call apiKey t in
  let o := upstream w call in
  Stocks.fetchStockPrice w t apiKey s
  = (Normal (price_result_of t o),
     if price_ok o then after_call call s
     else after_log [LogString ("Error fetching " ++ t ++ ":");
                     LogString (stock_failure_message t o)]
                    (after_call call s)).
Proof.
  cbv zeta.
  unfold Stocks.fetchStockPrice, try_catch, bind, fetch, price_result_of.
  fold (stock_call apiKey t).
  destruct (upstream w (stock_call apiKey t)) as [e | r]; simpl;
    [reflexivity |].
  destruct (ok r); simpl; [| reflexivity].
  unfold json. destruct (body r) as [e | data]; simpl; [reflexivity |].
  destruct (truthy data) eqn:Ht; simpl; [| reflexivity].
  rewrite (get_truthy data "price" Ht). unfold ret.
  destruct (typeof_number (field "price" data)); reflexivity.
Qed.

Lemma transcript_client_run (w : World) (t : string) (apiKey : JSValue)
    (s : St) :
  let call := transcript_call apiKey t in
  let o := upstream w call in
  Transcripts.fetchEarningsTranscript w t apiKey s
  = (Normal (transcript_result_of t o),
     if transcript_ok o then after_call call s
     else after_log [LogString ("Error fetching transcript for " ++ t ++ ":");
                     LogString (transcript_failure_message t o)]
                    (after_call call s)).
Proof.
  cbv zeta.
  unfold Transcripts.fetchEarningsTranscript, try_catch, bind, fetch,
    transcript_result_of.
  fold (transcript_call apiKey t).
  destruct (upstream w (transcript_call apiKey t)) as [e | r]; simpl;
    [reflexivity |].
  destruct (ok r); simpl; [| reflexivity].
  unfold json. destruct (body r) as [e | data]; simpl; [reflexivity |].
  destruct (truthy data) eqn:Ht; simpl; [| reflexivity].
  rewrite !(get_truthy data _ Ht). unfold ret.
  destruct (truthy (field "transcript" data)); reflexivity.
Qed.

(** X1: the stock client's Result by cause.  A rejected [fetch] gives a
    failure carrying the message of the rejection; a non-2xx response
    gives "API request failed for T: <status> <statusText>"; a body that
    does not parse gives the message of the parse error; a parsed body
    that is falsy or has no numeric [price] gives "Invalid data received
    for T"; any other body gives a success whose price is the body's
    [price], unchanged.  Every Result echoes the ticker, and a failure
    has a null price. *)
Theorem stock_client_by_cause (w : World) (t : string) (apiKey : JSValue)
    (s : St) :
  exists r s',
    Stocks.fetchStockPrice w t apiKey s = (Normal r, s') /\
    Stocks.ticker r = t /\
    match upstream w (stock_call apiKey t) with
    | NetworkError e =>
        Stocks.success r = false /\ Stocks.price r = JNull /\
        Stocks.error r = JString (message e)
    | Responded resp =>
        if ok resp then
          match body resp with
          | BodyInvalid e =>
              Stocks.success r = false /\ Stocks.price r = JNull /\
              Stocks.error r = JString (message e)
          | BodyJson data =>
              if truthy data && typeof_number (field "price" data) then
                Stocks.success r = true /\
                Stocks.price r = field "price" data /\
                Stocks.error r = JUndefined
              else
                Stocks.success r = false /\ Stocks.price r = JNull /\
                Stocks.error r = JString ("Invalid data received for " ++ t)
          end
        else
          Stocks.success r = false /\ Stocks.price r = JNull /\
          Stocks.error r
          = JString ("API request failed for " ++ t ++ ": "
                     ++ string_of_N (status resp) ++ " " ++ statusText resp)
    end.
Proof.
  eexists _, _. split; [apply stock_client_run |].
  unfold price_result_of, price_ok, stock_failure_message, parsed_body.
  destruct (upstream w (stock_call apiKey t)) as [e | resp]; simpl;
    [auto |].
  destruct (ok resp); simpl; [| auto].
  destruct (body resp) as [e | data]; simpl; [auto |].
  destruct (truthy data && typeof_number (field "price" data)); simpl; auto.
Qed.

(** X2: the transcript client's Result by cause.  A rejected [fetch] or
    a body that does not parse gives a failure carrying the message of
    the rejection; a non-2xx response gives "API request failed for T:
    <status> <statusText>"; a parsed body that is falsy or whose
    [transcript] is absent or falsy gives "No transcript data available
    for T"; any other body gives a success.  Every Result echoes the
    ticker. *)
Theorem transcript_client_by_cause (w : World) (t : string)
    (apiKey : JSValue) (s : St) :
  exists r s',
    Transcripts.fetchEarningsTranscript w t apiKey s = (Normal r, s') /\
    Transcripts.ticker r = t /\
    match upstream w (transcript_call apiKey t) with
    | NetworkError e =>
        Transcripts.success r = false /\
        Transcripts.error r = JString (message e)
    | Responded resp =>
        if ok resp then
          match body resp with
          | BodyInvalid e =>
              Transcripts.success r = false /\
              Transcripts.error r = JString (message e)
          | BodyJson data =>
              if truthy data && truthy (field "transcript" data) then
                Transcripts.success r = true /\
                Transcripts.error r = JUndefined
              else
                Transcripts.success r = false /\
                Transcripts.error r
                = JString ("No transcript data available for " ++ t)
          end
        else
          Transcripts.success r = false /\
          Transcripts.error r
          = JString ("API request failed for " ++ t ++ ": "
                     ++ string_of_N (status resp) ++ " " ++ statusText resp)
    end.
Proof.
  eexists _, _. split; [apply transcript_client_run |].
  unfold transcript_result_of, transcript_ok, transcript_failure_message,
    parsed_body.
  destruct (upstream w (transcript_call apiKey t)) as [e | resp]; simpl;
    [auto |].
  destruct (ok resp); simpl; [| auto].
  destruct (body resp) as [e | data]; simpl; [auto |].
  destruct (truthy data && truthy (field "transcript" data)); simpl; auto.
Qed.

(** X3: one attempt, no retry.  Whatever the upstream outcome, a call of
    either client makes exactly one outbound request, a GET to the
    provider URL of its ticker with the key in the [X-Api-Key] header; it
    leaves the response object untouched; it writes nothing to the
    console on success and exactly one line, carrying the error text of
    its Result, on failure. *)
Theorem clients_single_attempt (w : World) (t : string) (apiKey : JSValue)
    (s : St) :
  (exists r s',
     Stocks.fetchStockPrice w t apiKey s = (Normal r, s') /\
     res_headers s' = res_headers s /\ res_status s' = res_status s /\
     res_sent s' = res_sent s /\
     fetch_log s'
     = fetch_log s
       ++ [mkCall ("https://api.api-ninjas.com/v1/stockprice?ticker=" ++ t)
             "GET"
             [("X-Api-Key", apiKey);
              ("Content-Type", JString "application/json")]] /\
     (Stocks.success r = true -> console_log s' = console_log s) /\
     (Stocks.success r = false ->
      exists msg,
        Stocks.error r = JString msg /\
        console_log s'
        = console_log s
          ++ [[LogString ("Error fetching " ++ t ++ ":"); LogString msg]]))
  /\
  (exists r s',
     Transcripts.fetchEarningsTranscript w t apiKey s = (Normal r, s') /\
     res_headers s' = res_headers s /\ res_status s' = res_status s /\
     res_sent s' = res_sent s /\
     fetch_log s'
     = fetch_log s
       ++ [mkCall ("https://api.api-ninjas.com/v1/earningstranscript?ticker=" ++ t)
             "GET"
             [("X-Api-Key", apiKey);
              ("Content-Type", JString "application/json")]] /\
     (Transcripts.success r = true -> console_log s' = console_log s) /\
     (Transcripts.success r = false ->
      exists msg,
        Transcripts.error r = JString msg /\
        console_log s'
        = console_log s
          ++ [[LogString ("Error fetching transcript for " ++ t ++ ":");
               LogString msg]])).
Proof.
  split.
  - eexists _, _. split; [apply stock_client_run |].
    unfold price_result_of.
    destruct (price_ok (upstream w (stock_call apiKey t))); simpl;
      repeat split; try discriminate; eauto.
  - eexists _, _. split; [apply transcript_client_run |].
    unfold transcript_result_of.
    destruct (transcript_ok (upstream w (transcript_call apiKey t))); simpl;
      repeat split; try discriminate; eauto.
Qed.

(** X4: the list fields of a transcript Result.  In a success Result
    [participants] and [transcriptSplit] are never falsy: an upstream
    value that is truthy (an empty array included) is passed on
    unchanged, and one that is absent or falsy (null, false, 0, the
    empty string) is replaced by an empty array. *)
Theorem transcript_list_fields (w : World) (t : string) (apiKey : JSValue)
    (s : St) (resp : Response) (data : JSValue) :
  upstream w (transcript_call apiKey t) = Responded resp ->
  body resp = BodyJson data ->
  transcript_ok (Responded resp) = true ->
  exists r s',
    Transcripts.fetchEarningsTranscript w t apiKey s = (Normal r, s') /\
    Transcripts.success r = true /\
    truthy (Transcripts.participants r) = true /\
    truthy (Transcripts.transcriptSplit r) = true /\
    (truthy (field "participants" data) = true ->
     Transcripts.participants r = field "participants" data) /\
    (truthy (field "participants" data) = false ->
     Transcripts.participants r = JArray []) /\
    (truthy (field "transcript_split" data) = true ->
     Transcripts.transcriptSplit r = field "transcript_split" data) /\
    (truthy (field "transcript_split" data) = false ->
     Transcripts.transcriptSplit r = JArray []).
Proof.
  intros Ho Hb Hok.
  eexists _, _. split; [apply transcript_client_run |].
  rewrite Ho. unfold transcript_result_of. rewrite Hok.
  unfold parsed_body. rewrite Hb. cbn [Transcripts.success
    Transcripts.participants Transcripts.transcriptSplit].
  unfold or_else.
  destruct (truthy (field "participants" data)) eqn:Hp;
    destruct (truthy (field "transcript_split" data)) eqn:Hs;
    repeat split; intros; try discriminate; auto.
Qed.

Lemma transcript_list_fields_witness :
  upstream world_bare_transcript (transcript_call (JString "secret") "MSFT")
  = Responded bare_transcript_response /\
  body bare_transcript_response
  = BodyJson (JObject [("transcript", JString "Good afternoon, everyone.")]) /\
  transcript_ok (Responded bare_transcript_response) = true /\
  exists r s',
    Transcripts.fetchEarningsTranscript world_bare_transcript "MSFT"
      (JString "secret") fresh = (Normal r, s') /\
    Transcripts.participants r = JArray [].
Proof.
  split; [reflexivity |]. split; [reflexivity |]. split; [reflexivity |].
  destruct (transcript_list_fields world_bare_transcript "MSFT"
              (JString "secret") fresh bare_transcript_response _
              eq_refl eq_refl eq_refl)
    as (r & s' & E & _ & _ & _ & _ & Hp & _).
  exists r, s'. split; [exact E | exact (Hp eq_refl)].
Defined.

(** ** Every path of the handlers, with its final state *)

Ltac cors_done := cbn; rewrite <- ?app_assoc; reflexivity.

Lemma with_cors_headers (s : St) :
  res_headers (with_cors s) = res_headers s ++ CORS_HEADERS.
Proof. cors_done. Qed.

Lemma stocks_OPTIONS_run (w : World) (req : Request) (s : St) :
  method req = "OPTIONS" ->
  Stocks.handler w req s
  = (Normal tt,
     mkSt (res_headers s ++ CORS_HEADERS) 200 Ended (fetch_log s)
          (console_log s)).
Proof.
  intros Hm. unfold Stocks.handler, bind, res.setHeader. cbn.
  rewrite Hm. cors_done.
Qed.

Lemma transcripts_OPTIONS_run (w : World) (req : Request) (s : St) :
  method req = "OPTIONS" ->
  Transcripts.handler w req s
  = (Normal tt,
     mkSt (res_headers s ++ CORS_HEADERS) 200 Ended (fetch_log s)
          (console_log s)).
Proof.
  intros Hm. unfold Transcripts.handler, bind, res.setHeader. cbn.
  rewrite Hm. cors_done.
Qed.

Lemma stocks_405_run (w : World) (req : Request) (s : St) :
  method req <> "OPTIONS" ->
  method req <> "GET" ->
  Stocks.handler w req s
  = (Normal tt,
     mkSt (res_headers s ++ CORS_HEADERS) 405 (SentJson method_error_payload)
          (fetch_log s) (console_log s)).
Proof.
  intros Ho Hg. apply String.eqb_neq in Ho, Hg.
  unfold Stocks.handler, bind, res.setHeader. cbn. rewrite Ho, Hg. cors_done.
Qed.

Lemma transcripts_405_run (w : World) (req : Request) (s : St) :
  method req <> "OPTIONS" ->
  method req <> "GET" ->
  Transcripts.handler w req s
  = (Normal tt,
     mkSt (res_headers s ++ CORS_HEADERS) 405 (SentJson method_error_payload)
          (fetch_log s) (console_log s)).
Proof.
  intros Ho Hg. apply String.eqb_neq in Ho, Hg.
  unfold Transcripts.handler, bind, res.setHeader. cbn. rewrite Ho, Hg.
  cors_done.
Qed.

Lemma stocks_no_key_run (w : World) (req : Request) (s : St) :
  method req = "GET" ->
  truthy (process_env w "API_KEY") = false ->
  Stocks.handler w req s
  = (Normal tt,
     mkSt (res_headers s ++ CORS_HEADERS) 500 (SentJson config_error_payload)
          (fetch_log s)
          (console_log s
           ++ [[LogString "API_KEY environment variable is not configured"]])).
Proof.
  intros Hm Hk. rewrite (stocks_handler_GET w req s Hm).
  unfold try_catch, Stocks.try_block. rewrite Hk. cors_done.
Qed.

Lemma transcripts_no_key_run (w : World) (req : Request) (s : St) :
  method req = "GET" ->
  truthy (process_env w "API_KEY") = false ->
  Transcripts.handler w req s
  = (Normal tt,
     mkSt (res_headers s ++ CORS_HEADERS) 500 (SentJson config_error_payload)
          (fetch_log s)
          (console_log s
           ++ [[LogString "API_KEY environment variable is not configured"]])).
Proof.
  intros Hm Hk. rewrite (transcripts_handler_GET w req s Hm).
  unfold try_catch, Transcripts.try_block. rewrite Hk. cors_done.
Qed.

Lemma transcripts_missing_run (w : World) (req : Request) (s : St) :
  method req = "GET" ->
  truthy (process_env w "API_KEY") = true ->
  Transcripts.missing (query_param req "ticker") = true ->
  Transcripts.handler w req s
  = (Normal tt,
     mkSt (res_headers s ++ CORS_HEADERS) 200 (SentJson discovery_payload)
          (fetch_log s) (console_log s)).
Proof.
  intros Hm Hk Hmiss. rewrite (transcripts_handler_GET w req s Hm).
  unfold try_catch, Transcripts.try_block. rewrite Hk, Hmiss. cors_done.
Qed.

Lemma transcripts_array_run (w : World) (req : Request) (s : St)
    (items : list string) :
  method req = "GET" ->
  truthy (process_env w "API_KEY") = true ->
  query_param req "ticker" = QArray items ->
  Transcripts.handler w req s
  = (Normal tt,
     mkSt (res_headers s ++ CORS_HEADERS) 500
          (SentJson (JObject
             [ ("error", JString "Internal server error");
               ("message", JString "An unexpected error occurred while fetching transcript data");
               ("details", JString "ticker.toUpperCase is not a function") ]))
          (fetch_log s)
          (console_log s
           ++ [[LogString "Unexpected error in transcripts API:";
                LogError (TypeError "ticker.toUpperCase is not a function")]])).
Proof.
  intros Hm Hk Hq. rewrite (transcripts_handler_GET w req s Hm).
  unfold try_catch, Transcripts.try_block. rewrite Hk, Hq. cors_done.
Qed.

Lemma transcripts_invalid_run (w : World) (req : Request) (s : St)
    (t : string) :
  method req = "GET" ->
  truthy (process_env w "API_KEY") = true ->
  query_param req "ticker" = QString t ->
  (t =? "") = false ->
  matches_allow_list w t = false ->
  Transcripts.handler w req s
  = (Normal tt,
     mkSt (res_headers s ++ CORS_HEADERS) 400
          (SentJson (invalid_ticker_payload t)) (fetch_log s) (console_log s)).
Proof.
  intros Hm Hk Hq Hne Hno. rewrite (transcripts_handler_GET w req s Hm).
  assert (Hc : truthy (Transcripts.company (toUpperCase w t)) = false)
    by (rewrite company_truthy; exact Hno).
  unfold try_catch, Transcripts.try_block. rewrite Hk, Hq.
  cbn [negb Transcripts.missing Transcripts.upper]. rewrite Hne.
  unfold bind, ret. rewrite Hc. cors_done.
Qed.

Lemma transcripts_valid_run (w : World) (req : Request) (s : St)
    (t : string) :
  method req = "GET" ->
  truthy (process_env w "API_KEY") = true ->
  query_param req "ticker" = QString t ->
  matches_allow_list w t = true ->
  let u := toUpperCase w t in
  let o := transcript_outcome w u in
  let call := transcript_call (process_env w "API_KEY") u in
  Transcripts.handler w req s
  = (Normal tt,
     if transcript_ok o then
       mkSt (res_headers s ++ CORS_HEADERS) 200
            (SentJson (transcript_payload u (parsed_body o)))
            (fetch_log s ++ [call]) (console_log s)
     else
       mkSt (res_headers s ++ CORS_HEADERS) 503
            (SentJson (transcript_unavailable_payload u
                         (transcript_failure_message u o)))
            (fetch_log s ++ [call])
            (console_log s
             ++ [[LogString ("Error fetching transcript for " ++ u ++ ":");
                  LogString (transcript_failure_message u o)]])).
Proof.
  intros Hm Hk Hq Hyes. cbv zeta. unfold transcript_outcome.
  rewrite (transcripts_handler_GET w req s Hm).
  assert (Hc : truthy (Transcripts.company (toUpperCase w t)) = true)
    by (rewrite company_truthy; exact Hyes).
  unfold try_catch, Transcripts.try_block. rewrite Hk, Hq.
  cbn [negb Transcripts.missing Transcripts.upper].
  rewrite (matches_nonempty w t Hyes).
  unfold bind, ret. rewrite Hc. cbn [negb].
  rewrite transcript_client_run. unfold transcript_result_of.
  destruct (transcript_ok
              (upstream w (transcript_call (process_env w "API_KEY")
                             (toUpperCase w t)))); cors_done.
Qed.

Lemma Forall2_eq_map {A B : Type} (f : A -> B) (l : list A) (rs : list B) :
  Forall2 (fun a b => b = f a) l rs -> rs = map f l.
Proof. induction 1 as [|a b l rs Hb _ IH]; simpl; congruence. Qed.

Lemma price_result_success (t : string) (o : FetchOutcome) :
  Stocks.success (price_result_of t o) = price_ok o.
Proof. unfold price_result_of. destruct (price_ok o); reflexivity. Qed.

Lemma stocks_fanout_results (w : World) (s : St) :
  exists s1,
    mapM (fun t => Stocks.fetchStockPrice w t (process_env w "API_KEY"))
         TICKERS s
    = (Normal (stock_results w), s1) /\
    client_frame (map (stock_call (process_env w "API_KEY")) TICKERS) s s1.
Proof.
  destruct (mapM_total
              (fun t => Stocks.fetchStockPrice w t (process_env w "API_KEY"))
              (fun t r => r = price_result_of t (stock_outcome w t))
              (stock_call (process_env w "API_KEY"))) with (l := TICKERS) (s := s)
    as (rs & s1 & E & F & Fr).
  - intros t s0. eexists _, _. split; [apply stock_client_run |].
    split; [reflexivity |].
    destruct (price_ok _); unfold client_frame; cbn; auto.
  - exists s1. rewrite E, (Forall2_eq_map _ _ _ F). auto.
Qed.

Lemma stock_results_good (w : World) :
  filter Stocks.success (stock_results w)
  = map (fun t => price_result_of t (stock_outcome w t))
        (filter (succeeded w) TICKERS).
Proof.
  unfold stock_results. rewrite filter_map_swap. f_equal.
  apply filter_ext. intros t. apply price_result_success.
Qed.

Lemma stock_results_bad (w : World) :
  filter failed (stock_results w)
  = map (fun t => price_result_of t (stock_outcome w t))
        (filter (fun t => negb (succeeded w t)) TICKERS).
Proof.
  unfold stock_results. rewrite filter_map_swap. f_equal.
  apply filter_ext. intros t. unfold failed.
  rewrite price_result_success. reflexivity.
Qed.

(** A GET with the key configured, with the Results spelled out. *)
Lemma stocks_GET_explicit (w : World) (req : Request) (s : St) :
  method req = "GET" ->
  truthy (process_env w "API_KEY") = true ->
  exists s',
    Stocks.handler w req s = (Normal tt, s') /\
    res_headers s' = res_headers s ++ CORS_HEADERS /\
    fetch_log s'
    = fetch_log s ++ map (stock_call (process_env w "API_KEY")) TICKERS /\
    (existsb (succeeded w) TICKERS = false ->
       res_status s' = 503%N /\
       res_sent s' = SentJson (JObject
         [ ("error", JString "Service unavailable");
           ("message", JString "Unable to fetch stock data from API");
           ("details", JArray (map Stocks.detail_entry (stock_results w))) ])) /\
    (existsb (succeeded w) TICKERS = true ->
       res_status s' = 200%N /\
       res_sent s' = SentJson (JObject
         ([ ("timestamp", JString (clock w));
            ("stocks", JArray (map Stocks.stock_entry
                                 (filter Stocks.success (stock_results w))));
            ("metadata", JObject
               [ ("total", JNumber (number_of_nat 5));
                 ("successful",
                  JNumber (number_of_nat
                             (List.length (filter (succeeded w) TICKERS))));
                 ("failed",
                  JNumber (number_of_nat
                             (List.length
                                (filter (fun t => negb (succeeded w t))
                                        TICKERS)))) ]) ]
          ++ if existsb (fun t => negb (succeeded w t)) TICKERS then
               [ ("warnings",
                  JArray (map Stocks.warning_entry
                            (filter failed (stock_results w)))) ]
             else []))).
Proof.
  intros Hm Hk. rewrite (stocks_handler_GET w req s Hm).
  destruct (stocks_fanout_results w (with_cors s)) as (s1 & E & Fr).
  destruct Fr as (Hh & _ & _ & Hlog).
  rewrite with_cors_headers in Hh.
  unfold try_catch, Stocks.try_block. rewrite Hk.
  change (negb true) with false. cbv iota.
  rewrite stocks_tickers, (bind_run _ _ _ _ _ E).
  fold failed.
  assert (Hbadlen :
    List.length (filter failed (stock_results w))
    = List.length (filter (fun t => negb (succeeded w t)) TICKERS))
    by (rewrite stock_results_bad; apply length_map).
  assert (Hgoodlen :
    List.length (filter Stocks.success (stock_results w))
    = List.length (filter (succeeded w) TICKERS))
    by (rewrite stock_results_good; apply length_map).
  rewrite Hbadlen, Hgoodlen.
  destruct (existsb (succeeded w) TICKERS) eqn:Hany.
  - apply filter_cons_existsb in Hany.
    destruct (filter (succeeded w) TICKERS) as [|g good] eqn:Hgood;
      [contradiction |].
    cbn [List.length Nat.eqb].
    destruct (existsb (fun t => negb (succeeded w t)) TICKERS) eqn:Hbad.
    + apply filter_cons_existsb in Hbad.
      destruct (filter (fun t => negb (succeeded w t)) TICKERS)
        as [|b bad] eqn:Hb; [contradiction |].
      cbn [List.length Nat.ltb Nat.leb].
      eexists. split; [reflexivity |]. cbn -[stock_results].
      split; [exact Hh |]. split; [exact Hlog |].
      split; [discriminate | intros _; split; reflexivity].
    + apply filter_nil_existsb in Hbad. rewrite Hbad.
      cbn [List.length Nat.ltb Nat.leb].
      eexists. split; [reflexivity |]. cbn -[stock_results].
      split; [exact Hh |]. split; [exact Hlog |].
      split; [discriminate | intros _; split; reflexivity].
  - pose proof Hany as Hnil. apply filter_nil_existsb in Hnil. rewrite Hnil.
    cbn [List.length Nat.eqb].
    eexists. split; [reflexivity |]. cbn -[stock_results].
    split; [exact Hh |]. split; [exact Hlog |].
    split; [intros _ | discriminate].
    split; [reflexivity |].
    rewrite stock_results_bad, (filter_all _ _ Hany). reflexivity.
Qed.

(** The status of the transcripts handler's answer, read off the
    request and the world. *)
Lemma transcripts_run_summary (w : World) (req : Request) (s : St) :
  exists s',
    Transcripts.handler w req s = (Normal tt, s') /\
    res_headers s' = res_headers s ++ CORS_HEADERS /\
    res_sent s' <> NotSent /\
    res_status s'
    = (if method req =? "OPTIONS" then 200%N
       else if negb (method req =? "GET") then 405%N
       else if negb (truthy (process_env w "API_KEY")) then 500%N
       else match query_param req "ticker" with
            | QUndefined => 200%N
            | QArray _ => 500%N
            | QString t =>
                if t =? "" then 200%N
                else if negb (matches_allow_list w t) then 400%N
                else if transcript_ok (transcript_outcome w (toUpperCase w t))
                     then 200%N else 503%N
            end) /\
    fetch_log s'
    = fetch_log s
      ++ (if (method req =? "GET") && truthy (process_env w "API_KEY") then
            match query_param req "ticker" with
            | QString t =>
                if matches_allow_list w t then
                  [transcript_call (process_env w "API_KEY") (toUpperCase w t)]
                else []
            | _ => []
            end
          else []).
Proof.
  destruct (String.eqb_spec (method req) "OPTIONS") as [Ho | Ho].
  { eexists. split; [exact (transcripts_OPTIONS_run w req s Ho) |].
    rewrite Ho. cbn. rewrite app_nil_r. repeat split. discriminate. }
  destruct (String.eqb_spec (method req) "GET") as [Hg | Hg].
  2:{ eexists. split; [exact (transcripts_405_run w req s Ho Hg) |].
      cbn. rewrite app_nil_r. repeat split. discriminate. }
  cbn [negb andb].
  destruct (truthy (process_env w "API_KEY")) eqn:Hk.
  2:{ eexists. split; [exact (transcripts_no_key_run w req s Hg Hk) |].
      cbn. rewrite app_nil_r. repeat split. discriminate. }
  cbn [negb andb].
  destruct (query_param req "ticker") as [| t | items] eqn:Hq.
  - eexists. split.
    + apply (transcripts_missing_run w req s Hg Hk). rewrite Hq. reflexivity.
    + cbn. rewrite app_nil_r. repeat split. discriminate.
  - destruct (t =? "") eqn:Hne.
    { eexists. split.
      + apply (transcripts_missing_run w req s Hg Hk). rewrite Hq. exact Hne.
      + apply String.eqb_eq in Hne. subst t. rewrite (matches_empty w).
        cbn. rewrite app_nil_r. repeat split. discriminate. }
    destruct (matches_allow_list w t) eqn:Hyes.
    + eexists. split; [exact (transcripts_valid_run w req s t Hg Hk Hq Hyes) |].
      cbn [negb].
      destruct (transcript_ok (transcript_outcome w (toUpperCase w t)));
        cbn; repeat split; discriminate.
    + eexists. split;
        [exact (transcripts_invalid_run w req s t Hg Hk Hq Hne Hyes) |].
      cbn. rewrite app_nil_r. repeat split. discriminate.
  - eexists. split; [exact (transcripts_array_run w req s items Hg Hk Hq) |].
    cbn. rewrite app_nil_r. repeat split. discriminate.
Qed.

Lemma stocks_run_summary (w : World) (req : Request) (s : St) :
  exists s',
    Stocks.handler w req s = (Normal tt, s') /\
    res_headers s' = res_headers s ++ CORS_HEADERS /\
    res_sent s' <> NotSent /\
    res_status s'
    = (if method req =? "OPTIONS" then 200%N
       else if negb (method req =? "GET") then 405%N
       else if negb (truthy (process_env w "API_KEY")) then 500%N
       else if existsb (succeeded w) TICKERS then 200%N else 503%N) /\
    fetch_log s'
    = fetch_log s
      ++ (if (method req =? "GET") && truthy (process_env w "API_KEY") then
            map (stock_call (process_env w "API_KEY")) TICKERS
          else []).
Proof.
  destruct (String.eqb_spec (method req) "OPTIONS") as [Ho | Ho].
  { eexists. split; [exact (stocks_OPTIONS_run w req s Ho) |].
    rewrite Ho. cbn. rewrite app_nil_r. repeat split. discriminate. }
  destruct (String.eqb_spec (method req) "GET") as [Hg | Hg].
  2:{ eexists. split; [exact (stocks_405_run w req s Ho Hg) |].
      cbn. rewrite app_nil_r. repeat split. discriminate. }
  cbn [negb andb].
  destruct (truthy (process_env w "API_KEY")) eqn:Hk.
  2:{ eexists. split; [exact (stocks_no_key_run w req s Hg Hk) |].
      cbn. rewrite app_nil_r. repeat split. discriminate. }
  cbn [negb andb].
  destruct (stocks_GET_explicit w req s Hg Hk)
    as (s' & E & Hh & Hlog & H503 & H200).
  exists s'. split; [exact E |]. split; [exact Hh |].
  destruct (existsb (succeeded w) TICKERS).
  - destruct (H200 eq_refl) as (Hst & Hsent).
    rewrite Hsent, Hst. repeat split; [discriminate | exact Hlog].
  - destruct (H503 eq_refl) as (Hst & Hsent).
    rewrite Hsent, Hst. repeat split; [discriminate | exact Hlog].
Qed.

(** ** Properties of the handlers beyond the decision rules *)

(** X5: the preflight.  Both handlers answer an OPTIONS request with
    status 200, no body and the four CORS headers, whether or not the
    API key is configured and whatever the query; nothing is fetched and
    nothing is logged. *)
Theorem preflight_short_circuit (w : World) (req : Request) (s : St) :
  method req = "OPTIONS" ->
  let answered :=
    mkSt (res_headers s
          ++ [ ("Access-Control-Allow-Credentials", JBool true);
               ("Access-Control-Allow-Origin", JString "*");
               ("Access-Control-Allow-Methods", JString "GET,OPTIONS");
               ("Access-Control-Allow-Headers", JString "Content-Type") ])
         200 Ended (fetch_log s) (console_log s) in
  Stocks.handler w req s = (Normal tt, answered) /\
  Transcripts.handler w req s = (Normal tt, answered).
Proof.
  intros Hm. split.
  - exact (stocks_OPTIONS_run w req s Hm).
  - exact (transcripts_OPTIONS_run w req s Hm).
Qed.

Lemma preflight_short_circuit_witness :
  method (mkRequest "OPTIONS" [("ticker", QString "xyz")]) = "OPTIONS" /\
  res_sent (snd (Transcripts.handler world_no_key
                   (mkRequest "OPTIONS" [("ticker", QString "xyz")]) fresh))
  = Ended.
Proof.
  split; [reflexivity |].
  destruct (preflight_short_circuit world_no_key
              (mkRequest "OPTIONS" [("ticker", QString "xyz")]) fresh eq_refl)
    as (_ & H).
  rewrite H. reflexivity.
Defined.

(** X6: other methods.  Both handlers answer every method other than
    GET and OPTIONS with status 405 and the same "Method not allowed"
    payload, under the CORS headers, whether or not the API key is
    configured and whatever the query; nothing is fetched and nothing is
    logged. *)
Theorem method_not_allowed (w : World) (req : Request) (s : St) :
  method req <> "OPTIONS" ->
  method req <> "GET" ->
  let answered :=
    mkSt (res_headers s ++ CORS_HEADERS) 405
         (SentJson (JObject
            [ ("error", JString "Method not allowed");
              ("message", JString "Only GET requests are supported") ]))
         (fetch_log s) (console_log s) in
  Stocks.handler w req s = (Normal tt, answered) /\
  Transcripts.handler w req s = (Normal tt, answered).
Proof.
  intros Ho Hg. split.
  - exact (stocks_405_run w req s Ho Hg).
  - exact (transcripts_405_run w req s Ho Hg).
Qed.

Lemma method_not_allowed_witness :
  method POST <> "OPTIONS" /\
  method POST <> "GET" /\
  res_status (snd (Stocks.handler world_partial POST fresh)) = 405%N /\
  fetch_log (snd (Stocks.handler world_partial POST fresh)) = [].
Proof.
  split; [discriminate |]. split; [discriminate |].
  destruct (method_not_allowed world_partial POST fresh
              ltac:(discriminate) ltac:(discriminate)) as (H & _).
  rewrite H. split; reflexivity.
Defined.

(** X7: the stocks handler always answers.  For every world, request
    and starting state it completes without throwing, has sent a
    response, has set exactly the four CORS headers, and the status is
    one of 200, 405, 500 and 503 (never 400). *)
Theorem stocks_always_answers (w : World) (req : Request) (s : St) :
  exists s',
    Stocks.handler w req s = (Normal tt, s') /\
    res_sent s' <> NotSent /\
    res_headers s' = res_headers s ++ CORS_HEADERS /\
    In (res_status s') [200%N; 405%N; 500%N; 503%N].
Proof.
  destruct (stocks_run_summary w req s) as (s' & E & Hh & Hsent & Hst & _).
  exists s'. split; [exact E |]. split; [exact Hsent |]. split; [exact Hh |].
  rewrite Hst.
  destruct (method req =? "OPTIONS"); [simpl; auto |].
  destruct (method req =? "GET"); [| simpl; auto].
  destruct (truthy (process_env w "API_KEY")); [| simpl; auto].
  destruct (existsb (succeeded w) TICKERS); simpl; auto.
Qed.

(** X8: the transcripts handler always answers.  For every world,
    request (a repeated [ticker] parameter included) and starting state
    it completes without throwing, has sent a response, has set exactly
    the four CORS headers, and the status is one of 200, 400, 405, 500
    and 503. *)
Theorem transcripts_always_answers (w : World) (req : Request) (s : St) :
  exists s',
    Transcripts.handler w req s = (Normal tt, s') /\
    res_sent s' <> NotSent /\
    res_headers s' = res_headers s ++ CORS_HEADERS /\
    In (res_status s') [200%N; 400%N; 405%N; 500%N; 503%N].
Proof.
  destruct (transcripts_run_summary w req s)
    as (s' & E & Hh & Hsent & Hst & _).
  exists s'. split; [exact E |]. split; [exact Hsent |]. split; [exact Hh |].
  rewrite Hst.
  destruct (method req =? "OPTIONS"); [simpl; auto |].
  destruct (method req =? "GET"); [| simpl; auto].
  destruct (truthy (process_env w "API_KEY")); [| simpl; auto].
  destruct (query_param req "ticker") as [| t | items]; [simpl; auto | |
    simpl; auto].
  destruct (t =? ""); [simpl; auto |].
  destruct (matches_allow_list w t); [| simpl; auto].
  destruct (transcript_ok (transcript_outcome w (toUpperCase w t)));
    simpl; auto 6.
Qed.

(** X9: the status of the stocks handler, as a function of the request
    and the world: 200 for OPTIONS; 405 for any other method than GET;
    for a GET, 500 when the key is absent or empty, else 200 when at
    least one of the five fetches succeeds and 503 when none does.  In
    particular the [catch] block never decides the status. *)
Theorem stocks_status_of_request (w : World) (req : Request) (s : St) :
  res_status (snd (Stocks.handler w req s))
  = if method req =? "OPTIONS" then 200%N
    else if negb (method req =? "GET") then 405%N
    else if negb (truthy (process_env w "API_KEY")) then 500%N
    else if existsb (succeeded w) TICKERS then 200%N else 503%N.
Proof.
  destruct (stocks_run_summary w req s) as (s' & E & _ & _ & Hst & _).
  rewrite E. exact Hst.
Qed.

(** X10: the status of the transcripts handler, as a function of the
    request and the world: 200 for OPTIONS; 405 for any other method
    than GET; for a GET, 500 when the key is absent or empty; else 200
    (discovery) when [ticker] is absent or empty, 500 when it is
    repeated, 400 when its uppercasing (by the engine's [toUpperCase],
    Unicode mappings included) is not in the allow-list, and otherwise
    200 or 503 as the one upstream call succeeds or fails. *)
Theorem transcripts_status_of_request (w : World) (req : Request) (s : St) :
  res_status (snd (Transcripts.handler w req s))
  = if method req =? "OPTIONS" then 200%N
    else if negb (method req =? "GET") then 405%N
    else if negb (truthy (process_env w "API_KEY")) then 500%N
    else match query_param req "ticker" with
         | QUndefined => 200%N
         | QArray _ => 500%N
         | QString t =>
             if t =? "" then 200%N
             else if negb (matches_allow_list w t) then 400%N
             else if transcript_ok (transcript_outcome w (toUpperCase w t))
                  then 200%N else 503%N
         end.
Proof.
  destruct (transcripts_run_summary w req s) as (s' & E & _ & _ & Hst & _).
  rewrite E. exact Hst.
Qed.

(** X11: the upstream calls of the stocks handler.  A GET with the key
    configured makes exactly five calls, one per ticker in the order
    AAPL, MSFT, GOOGL, META, AMZN, each with the key in its header, and
    makes all five whatever the earlier ones return; every other request
    makes none. *)
Theorem stocks_upstream_calls (w : World) (req : Request) (s : St) :
  fetch_log (snd (Stocks.handler w req s))
  = fetch_log s
    ++ (if (method req =? "GET") && truthy (process_env w "API_KEY") then
          map (fun t =>
                 mkCall ("https://api.api-ninjas.com/v1/stockprice?ticker=" ++ t)
                   "GET"
                   [ ("X-Api-Key", process_env w "API_KEY");
                     ("Content-Type", JString "application/json") ])
              ["AAPL"; "MSFT"; "GOOGL"; "META"; "AMZN"]
        else []).
Proof.
  destruct (stocks_run_summary w req s) as (s' & E & _ & _ & _ & Hlog).
  rewrite E. exact Hlog.
Qed.

(** X12: the upstream calls of the transcripts handler.  It makes one
    call, for the uppercased ticker, exactly when the request is a GET,
    the key is configured and [ticker] is a string whose uppercasing (by
    the engine's [toUpperCase], Unicode mappings included) is in the
    allow-list; every other request makes none. *)
Theorem transcripts_upstream_calls (w : World) (req : Request) (s : St) :
  fetch_log (snd (Transcripts.handler w req s))
  = fetch_log s
    ++ (if (method req =? "GET") && truthy (process_env w "API_KEY") then
          match query_param req "ticker" with
          | QString t =>
              if matches_allow_list w t then
                [ mkCall ("https://api.api-ninjas.com/v1/earningstranscript?ticker="
                          ++ toUpperCase w t)
                    "GET"
                    [ ("X-Api-Key", process_env w "API_KEY");
                      ("Content-Type", JString "application/json") ] ]
              else []
          | _ => []
          end
        else []).
Proof.
  destruct (transcripts_run_summary w req s) as (s' & E & _ & _ & _ & Hlog).
  rewrite E. exact Hlog.
Qed.

Lemma existsb_false_In {A : Type} (f : A -> bool) (l : list A) (x : A) :
  existsb f l = false -> In x l -> f x = false.
Proof.
  induction l as [|a l IH]; simpl; [contradiction |].
  intros H [Hx | Hx]; apply orb_false_iff in H; destruct H as (Ha & Hl).
  - subst a. exact Ha.
  - exact (IH Hl Hx).
Qed.

Lemma stock_entries_good (w : World) :
  map Stocks.stock_entry (filter Stocks.success (stock_results w))
  = map (fun t => JObject
           [ ("ticker", JString t);
             ("companyName", Stocks.company t);
             ("price", field "price" (parsed_body (stock_outcome w t))) ])
        (filter (succeeded w) TICKERS).
Proof.
  rewrite stock_results_good, map_map. apply map_ext_in.
  intros t Ht. apply filter_In in Ht. destruct Ht as (_ & Hok).
  unfold succeeded in Hok. unfold price_result_of, stock_outcome.
  rewrite Hok. reflexivity.
Qed.

Lemma warning_entries_bad (w : World) :
  map Stocks.warning_entry (filter failed (stock_results w))
  = map (fun t => JObject
           [ ("ticker", JString t);
             ("companyName", Stocks.company t);
             ("message", JString "Failed to fetch data") ])
        (filter (fun t => negb (succeeded w t)) TICKERS).
Proof.
  rewrite stock_results_bad, map_map. apply map_ext.
  intros t. unfold price_result_of.
  destruct (price_ok (stock_outcome w t)); reflexivity.
Qed.

(** X13: the 200 payload of the stocks handler, spelled out.  For a GET
    with the key configured and at least one successful fetch, the
    payload is the clock's timestamp; one [{ticker, companyName, price}]
    entry per successful ticker, whose company name is the mapped one and
    whose price is the upstream body's [price], unchanged; the counts of
    successful and failed tickers; and, only when some fetch failed,
    [warnings] with one [{ticker, companyName, message}] entry per failed
    ticker, whose message is the fixed text and never the failure
    reason. *)
Theorem stocks_success_payload (w : World) (req : Request) (s : St) :
  method req = "GET" ->
  truthy (process_env w "API_KEY") = true ->
  existsb (succeeded w) TICKERS = true ->
  let good := filter (succeeded w) TICKERS in
  let bad := filter (fun t => negb (succeeded w t)) TICKERS in
  res_sent (snd (Stocks.handler w req s))
  = SentJson (JObject
      ([ ("timestamp", JString (clock w));
         ("stocks", JArray
            (map (fun t => JObject
                    [ ("ticker", JString t);
                      ("companyName", Stocks.company t);
                      ("price", field "price" (parsed_body (stock_outcome w t))) ])
                 good));
         ("metadata", JObject
            [ ("total", JNumber (number_of_nat 5));
              ("successful", JNumber (number_of_nat (List.length good)));
              ("failed", JNumber (number_of_nat (List.length bad))) ]) ]
       ++ match bad with
          | [] => []
          | _ :: _ =>
              [ ("warnings", JArray
                   (map (fun t => JObject
                           [ ("ticker", JString t);
                             ("companyName", Stocks.company t);
                             ("message", JString "Failed to fetch data") ])
                        bad)) ]
          end)).
Proof.
  intros Hm Hk Hany. cbv zeta.
  destruct (stocks_GET_explicit w req s Hm Hk) as (s' & E & _ & _ & _ & H200).
  destruct (H200 Hany) as (_ & Hsent).
  rewrite E. cbn [snd]. rewrite Hsent.
  rewrite stock_entries_good, warning_entries_bad.
  destruct (existsb (fun t => negb (succeeded w t)) TICKERS) eqn:Hbad.
  - apply filter_cons_existsb in Hbad.
    destruct (filter (fun t => negb (succeeded w t)) TICKERS);
      [contradiction | reflexivity].
  - apply filter_nil_existsb in Hbad. rewrite Hbad. reflexivity.
Qed.

Lemma stocks_success_payload_witness :
  method (GET []) = "GET" /\
  truthy (process_env world_partial "API_KEY") = true /\
  existsb (succeeded world_partial) TICKERS = true /\
  field "stocks"
    (payload (snd (Stocks.handler world_partial (GET []) fresh)))
  = JArray [ JObject [ ("ticker", JString "AAPL");
                       ("companyName", JString "Apple Inc.");
                       ("price", JNumber 189.5%float) ] ].
Proof.
  split; [reflexivity |]. split; [reflexivity |]. split; [reflexivity |].
  unfold payload.
  rewrite (stocks_success_payload world_partial (GET []) fresh
             eq_refl eq_refl eq_refl).
  reflexivity.
Defined.

(** X14: the 503 payload of the stocks handler, spelled out.  For a GET
    with the key configured and no successful fetch, [details] holds
    one entry per ticker, in ticker order, whose [error] is the reason of
    that ticker's failure: the message of the rejected [fetch] or of the
    parse error, "API request failed for T: <status> <statusText>", or
    "Invalid data received for T". *)
Theorem stocks_unavailable_payload (w : World) (req : Request) (s : St) :
  method req = "GET" ->
  truthy (process_env w "API_KEY") = true ->
  existsb (succeeded w) TICKERS = false ->
  res_sent (snd (Stocks.handler w req s))
  = SentJson (JObject
      [ ("error", JString "Service unavailable");
        ("message", JString "Unable to fetch stock data from API");
        ("details", JArray
           (map (fun t => JObject
                   [ ("ticker", JString t);
                     ("error",
                      JString (stock_failure_message t (stock_outcome w t))) ])
                TICKERS)) ]).
Proof.
  intros Hm Hk Hnone.
  destruct (stocks_GET_explicit w req s Hm Hk) as (s' & E & _ & _ & H503 & _).
  destruct (H503 Hnone) as (_ & Hsent).
  rewrite E. cbn [snd]. rewrite Hsent.
  unfold stock_results. rewrite map_map.
  rewrite (map_ext_in
             (fun t => Stocks.detail_entry (price_result_of t (stock_outcome w t)))
             (fun t => JObject
                [ ("ticker", JString t);
                  ("error",
                   JString (stock_failure_message t (stock_outcome w t))) ])
             TICKERS); [reflexivity |].
  intros t Ht.
  pose proof (existsb_false_In _ _ t Hnone Ht) as Hfail.
  unfold succeeded in Hfail. unfold price_result_of, stock_outcome.
  rewrite Hfail. reflexivity.
Qed.

Lemma stocks_unavailable_payload_witness :
  method (GET []) = "GET" /\
  truthy (process_env world_down "API_KEY") = true /\
  existsb (succeeded world_down) TICKERS = false /\
  nth 0 (elements (field "details"
           (payload (snd (Stocks.handler world_down (GET []) fresh)))))
        JUndefined
  = JObject [("ticker", JString "AAPL"); ("error", JString "fetch failed")].
Proof.
  split; [reflexivity |]. split; [reflexivity |]. split; [reflexivity |].
  unfold payload.
  rewrite (stocks_unavailable_payload world_down (GET []) fresh
             eq_refl eq_refl eq_refl).
  reflexivity.
Defined.

(** X15: the 200 answer of the transcripts handler to a supported
    ticker.  When the one upstream call succeeds, the payload is
    [{success: true, data}] where [data] holds the uppercased ticker, its
    mapped company name, and the body's date, timestamp, year, quarter,
    earnings timing and transcript unchanged, with [participants] and
    [transcriptSplit] defaulted to empty arrays; one call has been made
    and nothing has been logged. *)
Theorem transcripts_success_answer (w : World) (req : Request) (s : St)
    (t : string) :
  method req = "GET" ->
  truthy (process_env w "API_KEY") = true ->
  query_param req "ticker" = QString t ->
  matches_allow_list w t = true ->
  transcript_ok (transcript_outcome w (toUpperCase w t)) = true ->
  let u := toUpperCase w t in
  let data := parsed_body (transcript_outcome w u) in
  Transcripts.handler w req s
  = (Normal tt,
     mkSt (res_headers s ++ CORS_HEADERS) 200
       (SentJson (JObject
          [ ("success", JBool true);
            ("data", JObject
               [ ("ticker", JString u);
                 ("companyName", Transcripts.company u);
                 ("date", field "date" data);
                 ("timestamp", field "timestamp" data);
                 ("year", field "year" data);
                 ("quarter", field "quarter" data);
                 ("earningsTiming", field "earnings_timing" data);
                 ("transcript", field "transcript" data);
                 ("participants",
                  or_else (field "participants" data) (JArray []));
                 ("transcriptSplit",
                  or_else (field "transcript_split" data) (JArray [])) ]) ]))
       (fetch_log s ++ [transcript_call (process_env w "API_KEY") u])
       (console_log s)).
Proof.
  intros Hm Hk Hq Hyes Hok. cbv zeta.
  rewrite (transcripts_valid_run w req s t Hm Hk Hq Hyes). cbv zeta.
  rewrite Hok. reflexivity.
Qed.

Lemma transcripts_success_answer_witness :
  method (GET_ticker "msft") = "GET" /\
  truthy (process_env world_bare_transcript "API_KEY") = true /\
  query_param (GET_ticker "msft") "ticker" = QString "msft" /\
  matches_allow_list world_bare_transcript "msft" = true /\
  transcript_ok (transcript_outcome world_bare_transcript (toUpperCase world_bare_transcript "msft"))
  = true /\
  field "transcript"
    (field "data"
       (payload (snd (Transcripts.handler world_bare_transcript
                        (GET_ticker "msft") fresh))))
  = JString "Good afternoon, everyone.".
Proof.
  split; [reflexivity |]. split; [reflexivity |]. split; [reflexivity |].
  split; [reflexivity |]. split; [reflexivity |].
  rewrite (transcripts_success_answer world_bare_transcript
             (GET_ticker "msft") fresh "msft"
             eq_refl eq_refl eq_refl eq_refl eq_refl).
  reflexivity.
Defined.

(** X16: the 503 answer of the transcripts handler to a supported
    ticker.  When the one upstream call fails, the payload names the
    uppercased ticker in [message] and carries the reason of the failure
    in [details]: the message of the rejected [fetch] or of the parse
    error, "API request failed for T: <status> <statusText>", or "No
    transcript data available for T"; the same reason is logged once. *)
Theorem transcripts_unavailable_answer (w : World) (req : Request) (s : St)
    (t : string) :
  method req = "GET" ->
  truthy (process_env w "API_KEY") = true ->
  query_param req "ticker" = QString t ->
  matches_allow_list w t = true ->
  transcript_ok (transcript_outcome w (toUpperCase w t)) = false ->
  let u := toUpperCase w t in
  let reason := transcript_failure_message u (transcript_outcome w u) in
  Transcripts.handler w req s
  = (Normal tt,
     mkSt (res_headers s ++ CORS_HEADERS) 503
       (SentJson (JObject
          [ ("error", JString "Service unavailable");
            ("message", JString ("Unable to fetch transcript for " ++ u));
            ("details", JString reason) ]))
       (fetch_log s ++ [transcript_call (process_env w "API_KEY") u])
       (console_log s
        ++ [[LogString ("Error fetching transcript for " ++ u ++ ":");
             LogString reason]])).
Proof.
  intros Hm Hk Hq Hyes Hok. cbv zeta.
  rewrite (transcripts_valid_run w req s t Hm Hk Hq Hyes). cbv zeta.
  rewrite Hok. reflexivity.
Qed.

Lemma transcripts_unavailable_answer_witness :
  method (GET_ticker "Meta") = "GET" /\
  truthy (process_env world_partial "API_KEY") = true /\
  query_param (GET_ticker "Meta") "ticker" = QString "Meta" /\
  matches_allow_list world_partial "Meta" = true /\
  transcript_ok (transcript_outcome world_partial (toUpperCase world_partial "Meta"))
  = false /\
  field "details"
    (payload (snd (Transcripts.handler world_partial (GET_ticker "Meta") fresh)))
  = JString "API request failed for META: 429 Too Many Requests".
Proof.
  split; [reflexivity |]. split; [reflexivity |]. split; [reflexivity |].
  split; [reflexivity |]. split; [reflexivity |].
  rewrite (transcripts_unavailable_answer world_partial
             (GET_ticker "Meta") fresh "Meta"
             eq_refl eq_refl eq_refl eq_refl eq_refl).
  reflexivity.
Defined.

(** X17: a repeated [ticker] parameter.  With the key configured, a GET
    whose [ticker] arrives as an array (whatever its items, supported
    tickers included) is answered 500: [ticker.toUpperCase()] throws, the
    [catch] block reports "ticker.toUpperCase is not a function" in
    [details] and logs the exception, and no upstream call is made. *)
Theorem repeated_ticker_internal_error (w : World) (req : Request) (s : St)
    (items : list string) :
  method req = "GET" ->
  truthy (process_env w "API_KEY") = true ->
  query_param req "ticker" = QArray items ->
  Transcripts.handler w req s
  = (Normal tt,
     mkSt (res_headers s ++ CORS_HEADERS) 500
       (SentJson (JObject
          [ ("error", JString "Internal server error");
            ("message", JString "An unexpected error occurred while fetching transcript data");
            ("details", JString "ticker.toUpperCase is not a function") ]))
       (fetch_log s)
       (console_log s
        ++ [[LogString "Unexpected error in transcripts API:";
             LogError (TypeError "ticker.toUpperCase is not a function")]])).
Proof. exact (transcripts_array_run w req s items). Qed.

Lemma repeated_ticker_internal_error_witness :
  method (GET [("ticker", QArray ["MSFT"; "MSFT"])]) = "GET" /\
  truthy (process_env world_bare_transcript "API_KEY") = true /\
  query_param (GET [("ticker", QArray ["MSFT"; "MSFT"])]) "ticker"
  = QArray ["MSFT"; "MSFT"] /\
  res_status (snd (Transcripts.handler world_bare_transcript
                     (GET [("ticker", QArray ["MSFT"; "MSFT"])]) fresh))
  = 500%N.
Proof.
  split; [reflexivity |]. split; [reflexivity |]. split; [reflexivity |].
  rewrite (repeated_ticker_internal_error world_bare_transcript
             (GET [("ticker", QArray ["MSFT"; "MSFT"])]) fresh
             ["MSFT"; "MSFT"] eq_refl eq_refl eq_refl).
  reflexivity.
Defined.

Lemma key_missing_iff (w : World) :
  truthy (process_env w "API_KEY") = false <->
  lookup "API_KEY" (env w) = None \/ lookup "API_KEY" (env w) = Some "".
Proof.
  unfold process_env.
  destruct (lookup "API_KEY" (env w)) as [v |]; simpl.
  - destruct (String.eqb_spec v ""); simpl; split.
    + intros _. right. congruence.
    + reflexivity.
    + discriminate.
    + intros [H | H]; congruence.
  - split; auto.
Qed.

(** X18: the missing key comes before the ticker.  When [API_KEY] is
    unset or set to the empty string, both handlers answer every GET
    with status 500 and the configuration-error payload under the CORS
    headers, log the misconfiguration once, and fetch nothing; the
    transcripts handler does so without looking at [ticker], so an
    unsupported or repeated ticker gets this 500 too, not 400. *)
Theorem missing_key_answer (w : World) (req : Request) (s : St) :
  method req = "GET" ->
  lookup "API_KEY" (env w) = None \/ lookup "API_KEY" (env w) = Some "" ->
  let answered :=
    mkSt (res_headers s ++ CORS_HEADERS) 500
      (SentJson (JObject
         [ ("error", JString "Server configuration error");
           ("message", JString "API key not configured. Please set API_KEY environment variable.") ]))
      (fetch_log s)
      (console_log s
       ++ [[LogString "API_KEY environment variable is not configured"]]) in
  Stocks.handler w req s = (Normal tt, answered) /\
  Transcripts.handler w req s = (Normal tt, answered).
Proof.
  intros Hm Hkey. apply key_missing_iff in Hkey. split.
  - exact (stocks_no_key_run w req s Hm Hkey).
  - exact (transcripts_no_key_run w req s Hm Hkey).
Qed.

Lemma missing_key_answer_witness :
  method (GET_ticker "xyz") = "GET" /\
  (lookup "API_KEY" (env world_empty_key) = None \/
   lookup "API_KEY" (env world_empty_key) = Some "") /\
  res_status (snd (Transcripts.handler
                     world_empty_key
                     (GET_ticker "xyz") fresh))
  = 500%N.
Proof.
  split; [reflexivity |]. split; [right; reflexivity |].
  destruct (missing_key_answer world_empty_key
              (GET_ticker "xyz") fresh eq_refl (or_intror eq_refl))
    as (_ & H).
  rewrite H. reflexivity.
Defined.

(** X19: only fixed URLs are called.  Whatever the request, every
    upstream call a handler makes is a GET carrying the configured key
    in [X-Api-Key], and its URL is one of the five provider URLs of the
    supported tickers: the caller's [ticker] reaches the provider only
    after it matched the allow-list, in uppercased form. *)
Theorem upstream_urls_are_fixed (w : World) (req : Request) (s : St) :
  let allowed (base : string) (c : FetchCall) :=
    In (call_url c)
       (map (fun t : string => (base ++ t)%string)
            ["AAPL"; "MSFT"; "GOOGL"; "META"; "AMZN"]) /\
    call_method c = "GET" /\
    lookup "X-Api-Key" (call_headers c) = Some (process_env w "API_KEY") in
  (exists calls,
     fetch_log (snd (Stocks.handler w req s)) = fetch_log s ++ calls /\
     Forall (allowed "https://api.api-ninjas.com/v1/stockprice?ticker=") calls)
  /\
  (exists calls,
     fetch_log (snd (Transcripts.handler w req s)) = fetch_log s ++ calls /\
     Forall (allowed "https://api.api-ninjas.com/v1/earningstranscript?ticker=")
            calls).
Proof.
  cbv zeta. split.
  - destruct (stocks_run_summary w req s) as (s' & E & _ & _ & _ & Hlog).
    rewrite E. eexists. split; [exact Hlog |].
    destruct ((method req =? "GET") && truthy (process_env w "API_KEY"));
      [| constructor].
    unfold TICKERS. cbn [map].
    repeat (apply Forall_cons; [split; [cbn; auto 10 | split; reflexivity] |]).
    apply Forall_nil.
  - destruct (transcripts_run_summary w req s) as (s' & E & _ & _ & _ & Hlog).
    rewrite E. eexists. split; [exact Hlog |].
    destruct ((method req =? "GET") && truthy (process_env w "API_KEY"));
      [| constructor].
    destruct (query_param req "ticker") as [| t | items]; try constructor.
    destruct (matches_allow_list w t) eqn:Hyes; constructor; [| constructor].
    split; [| split; reflexivity].
    apply (in_map (fun t => Transcripts.url t)) with (x := toUpperCase w t).
    exact (matches_In w t Hyes).
Qed.
